(** * ASVspoof / Whisper feature extraction: the dataset adapter

    A shallow embedding of [whisper_feature_extractor.py]: the class
    [ASVspoofWhisperDataset] with its protocol-file parser
    ([load_metadata]) and its per-item pipeline ([__getitem__]).

    Python exceptions are values of [exn] carried by [result]; the calls
    into torchaudio and into the Whisper front-end are collaborators of
    the section [Pipeline], and every such call is recorded in a trace.
    Console output ([print]) is not modelled. *)

From Stdlib Require Import ZArith List String Ascii Bool Lia Arith.
Import ListNotations.

Local Open Scope string_scope.
Local Open Scope Z_scope.

(** ** Exceptions *)

Inductive exn : Type :=
| FileNotFoundError (path : string)   (* [open] on a path with no file *)
| IndexError                          (* list or tensor index out of range *)
| AudioIOError (path : string)        (* [torchaudio.load] on a path with no file *)
| AudioDecodeError (path : string)    (* [torchaudio.load] on bytes it cannot decode *)
| LibraryError (who : string).        (* raised inside a library transform *)

Inductive result (A : Type) : Type :=
| Ok (a : A)
| Raise (e : exn).
Arguments Ok {A} a.
Arguments Raise {A} e.

Definition rbind {A B} (m : result A) (k : A -> result B) : result B :=
  match m with
  | Ok a => k a
  | Raise e => Raise e
  end.

Declare Scope result_scope.
Delimit Scope result_scope with result.
Notation "x <- m ;; k" := (rbind m (fun x => k))
  (at level 61, m at next level, right associativity) : result_scope.

Definition is_ok {A} (m : result A) : bool :=
  match m with Ok _ => true | Raise _ => false end.

(** ** Python built-ins used by the parser *)

Module Py.

(** [str.isspace] on one character, for code points below 256. *)
Definition isspace (c : ascii) : bool :=
  let n := nat_of_ascii c in
  (((9 <=? n) && (n <=? 13)) || ((28 <=? n) && (n <=? 32))
   || (n =? 133) || (n =? 160))%nat.

Fixpoint lstrip (s : string) : string :=
  match s with
  | EmptyString => EmptyString
  | String c rest => if isspace c then lstrip rest else s
  end.

Fixpoint rstrip (s : string) : string :=
  match s with
  | EmptyString => EmptyString
  | String c rest =>
      match rstrip rest with
      | EmptyString => if isspace c then EmptyString else String c EmptyString
      | kept => String c kept
      end
  end.

(** [s.strip()] *)
Definition strip (s : string) : string := rstrip (lstrip s).

(** The scan of [s.split()]: [word] is the field being read. *)
Fixpoint split_scan (word s : string) : list string :=
  match s with
  | EmptyString =>
      match word with EmptyString => [] | _ => [word] end
  | String c rest =>
      if isspace c
      then match word with
           | EmptyString => split_scan EmptyString rest
           | _ => word :: split_scan EmptyString rest
           end
      else split_scan (word ++ String c EmptyString) rest
  end.

(** [s.split()] with no separator: fields are the maximal runs of
    characters that are not whitespace. *)
Definition split (s : string) : list string := split_scan EmptyString s.

(** [l[i]] on a list: a negative index counts from the end; an index
    outside [-len, len) raises [IndexError]. *)
Definition getitem {A} (l : list A) (i : Z) : result A :=
  let n := Z.of_nat (List.length l) in
  let j := if i <? 0 then i + n else i in
  if (j <? 0) || (n <=? j) then Raise IndexError
  else match nth_error l (Z.to_nat j) with
       | Some a => Ok a
       | None => Raise IndexError
       end.

Definition LF : ascii := "010"%char.
Definition CR : ascii := "013"%char.

(** Text mode with the default [newline=None]: "\r\n" and "\r" are read
    as "\n". *)
Fixpoint translate_newlines (s : string) : string :=
  match s with
  | EmptyString => EmptyString
  | String c rest =>
      if Ascii.eqb c CR
      then match rest with
           | String c' rest' =>
               if Ascii.eqb c' LF
               then String LF (translate_newlines rest')
               else String LF (translate_newlines rest)
           | EmptyString => String LF EmptyString
           end
      else String c (translate_newlines rest)
  end.

(** The scan of [f.readlines()]: every line keeps its "\n"; a last line
    without one is returned as it is. *)
Fixpoint readlines_scan (line s : string) : list string :=
  match s with
  | EmptyString =>
      match line with EmptyString => [] | _ => [line] end
  | String c rest =>
      if Ascii.eqb c LF
      then (line ++ String LF EmptyString) :: readlines_scan EmptyString rest
      else readlines_scan (line ++ String c EmptyString) rest
  end.

Definition readlines (contents : string) : list string :=
  readlines_scan EmptyString (translate_newlines contents).

End Py.

(** ** The metadata loader *)

(** The text files that can be opened: a path has contents or no file. *)
Definition filesystem := string -> option string.

(** [open(path, 'r')] followed by [f.readlines()]. *)
Definition open_readlines (fs : filesystem) (path : string) : result (list string) :=
  match fs path with
  | Some contents => Ok (Py.readlines contents)
  | None => Raise (FileNotFoundError path)
  end.

(** A metadata entry: [(filename, label)]. *)
Definition entry : Type := string * Z.

(** [parts = line.strip().split()] *)
Definition fields (line : string) : list string := Py.split (Py.strip line).

(** [0 if parts[4] == 'bonafide' else 1] *)
Definition label_of (field4 : string) : Z :=
  if String.eqb field4 "bonafide" then 0 else 1.

(** The body of the loop of [load_metadata] on one line. *)
Definition parse_line (line : string) : result entry :=
  (let parts := fields line in
   filename <- Py.getitem parts 1 ;;
   field4 <- Py.getitem parts 4 ;;
   Ok (filename, label_of field4))%result.

(** The [for] loop of [load_metadata]: [data] is the list built so far. *)
Fixpoint load_metadata_loop (lines : list string) (data : list entry)
  : result (list entry) :=
  match lines with
  | [] => Ok data
  | line :: rest =>
      (e <- parse_line line ;;
       load_metadata_loop rest (data ++ [e])%list)%result
  end.

Definition load_metadata (fs : filesystem) (protocol_path : string)
  : result (list entry) :=
  (lines <- open_readlines fs protocol_path ;;
   load_metadata_loop lines [])%result.

(** ** Tensors *)

Section Tensor.

Variable A : Type.

(** A tensor as torch holds a contiguous one: its shape and its elements
    in row-major order. *)
Record tensor : Type := mkTensor { shape : list nat; data : list A }.

Definition numel (s : list nat) : nat := fold_right Nat.mul 1%nat s.

Definition well_formed (t : tensor) : Prop :=
  List.length (data t) = numel (shape t).

Definition ndim (t : tensor) : nat := List.length (shape t).

(** [t.squeeze(0)]: dimension 0 is removed when its size is 1, and the
    tensor is returned as it is otherwise. *)
Definition squeeze0 (t : tensor) : tensor :=
  match shape t with
  | 1%nat :: s => mkTensor s (data t)
  | _ => t
  end.

(** [t.size(-1)] *)
Definition size_last (t : tensor) : result Z :=
  match rev (shape t) with
  | n :: _ => Ok (Z.of_nat n)
  | [] => Raise IndexError
  end.

(** The [count] consecutive blocks of [n] elements of [d]. *)
Definition blocks (count n : nat) (d : list A) : list (list A) :=
  map (fun i => firstn n (skipn (i * n) d)) (seq 0 count).

(** One row under [F.pad(_, (left, right), mode='constant', value)]:
    a negative amount removes elements on that side. *)
Definition pad_row (left right : Z) (value : A) (row : list A) : list A :=
  let row1 :=
    if left <? 0 then skipn (Z.to_nat (- left)) row
    else (repeat value (Z.to_nat left) ++ row)%list in
  if right <? 0 then firstn (List.length row1 - Z.to_nat (- right)) row1
  else (row1 ++ repeat value (Z.to_nat right))%list.

(** [F.pad(t, (left, right), mode='constant', value=value)]: pads the
    last dimension of every row; it raises on a tensor without dimensions
    and when a negative amount removes more than a row holds. *)
Definition F_pad (t : tensor) (left right : Z) (value : A) : result tensor :=
  match rev (shape t) with
  | [] => Raise (LibraryError "F.pad")
  | n :: outer =>
      let n' := Z.of_nat n + left + right in
      if (n' <? 0) || (Z.of_nat n + left <? 0) || (Z.of_nat n + right <? 0)
      then Raise (LibraryError "F.pad")
      else Ok (mkTensor (rev outer ++ [Z.to_nat n'])%list
                 (List.concat (map (pad_row left right value)
                                 (blocks (numel outer) n (data t)))))
  end.

(** The length of [range(n)[:stop]]. *)
Definition slice_stop (n : nat) (stop : Z) : nat :=
  if stop <? 0 then Z.to_nat (Z.max (stop + Z.of_nat n) 0)
  else Nat.min (Z.to_nat stop) n.

(** [t[:, :stop]]: dimension 0 is kept whole and dimension 1 is cut. *)
Definition slice_dim1 (t : tensor) (stop : Z) : result tensor :=
  match shape t with
  | d0 :: d1 :: inner =>
      let k := slice_stop d1 stop in
      let m := numel inner in
      Ok (mkTensor (d0 :: k :: inner)
            (List.concat (map (firstn (k * m)) (blocks d0 (d1 * m) (data t)))))
  | _ => Raise IndexError
  end.

(** [t[0]]: the first slice along dimension 0; on a waveform of shape
    (channels, frames), its first channel. *)
Definition select0 (t : tensor) : result tensor :=
  match shape t with
  | S _ :: inner => Ok (mkTensor inner (firstn (numel inner) (data t)))
  | _ => Raise IndexError
  end.

(** The rows of a matrix (a tensor of two dimensions). *)
Definition matrix_rows (t : tensor) : list (list A) :=
  match shape t with
  | [r; n] => blocks r n (data t)
  | _ => []
  end.

End Tensor.

Arguments mkTensor {A} shape data.
Arguments shape {A} t.
Arguments data {A} t.
Arguments well_formed {A} t.
Arguments ndim {A} t.
Arguments squeeze0 {A} t.
Arguments size_last {A} t.
Arguments blocks {A} count n d.
Arguments pad_row {A} left right value row.
Arguments F_pad {A} t left right value.
Arguments slice_dim1 {A} t stop.
Arguments select0 {A} t.
Arguments matrix_rows {A} t.

(** ** The dataset and its per-item pipeline *)

(** The instance attributes set by [__init__]. *)
Record dataset : Type := mkDataset {
  audio_dir : string;
  metadata : list entry;
  sampling_rate : Z;
  target_length : Z
}.

Definition default_sampling_rate : Z := 16000.
Definition default_target_length : Z := 3000.

(** [ASVspoofWhisperDataset(audio_dir, protocol_path, sampling_rate=16000,
    target_length=3000)]: an argument left out is [None] here. *)
Definition __init__ (fs : filesystem) (audio_dir protocol_path : string)
    (sampling_rate target_length : option Z) : result dataset :=
  (metadata <- load_metadata fs protocol_path ;;
   Ok (mkDataset audio_dir metadata
         (match sampling_rate with Some r => r | None => default_sampling_rate end)
         (match target_length with Some n => n | None => default_target_length end)))%result.

(** [__len__] *)
Definition __len__ (self : dataset) : Z := Z.of_nat (List.length (metadata self)).

Section Pipeline.

(** Amplitudes and spectrogram values, with the constant used for padding. *)
Variable sample : Type.
Variable zero : sample.

(** The audio files on disk, by path. *)
Variable audio_bytes : Type.
Variable audio_files : string -> option audio_bytes.

(** [os.path.join] of the platform. *)
Variable path_join : string -> string -> string.

(** The decoder behind [torchaudio.load]: a waveform of shape
    (channels, frames) and its native rate, or a failure. *)
Variable decode : audio_bytes -> option (tensor sample * Z).

(** [torchaudio.transforms.Resample(orig_freq, new_freq)(waveform)] *)
Variable Resample : Z -> Z -> tensor sample -> result (tensor sample).

(** [whisper_processor.feature_extractor(waveform, sampling_rate=...,
    return_tensors="pt").input_features] *)
Variable feature_extractor : tensor sample -> Z -> result (tensor sample).

(** The calls that leave the program. *)
Inductive event : Type :=
| EvLoad (path : string)
| EvResample (orig_freq new_freq : Z) (waveform : tensor sample)
| EvFeatureExtractor (waveform : tensor sample) (sampling_rate : Z).

(** A computation: the calls it made, in order, and how it ended. *)
Definition M (X : Type) : Type := list event * result X.

Definition mret {X} (x : X) : M X := ([], Ok x).

Definition mbind {X Y} (m : M X) (k : X -> M Y) : M Y :=
  match m with
  | (tr, Ok x) => let (tr', r) := k x in ((tr ++ tr')%list, r)
  | (tr, Raise e) => (tr, Raise e)
  end.

Definition lift {X} (r : result X) : M X := ([], r).

Definition call {X} (ev : event) (r : result X) : M X := ([ev], r).

Notation "x <-- m ;; k" := (mbind m (fun x => k))
  (at level 61, m at next level, right associativity).
Notation "' pat <-- m ;; k" := (mbind m (fun x => match x with pat => k end))
  (at level 61, pat pattern, m at next level, right associativity).

(** [torchaudio.load(path)]: a path with no file is an I/O error, bytes
    that do not decode are a decode error. *)
Definition torchaudio_load (path : string) : M (tensor sample * Z) :=
  call (EvLoad path)
    match audio_files path with
    | None => Raise (AudioIOError path)
    | Some bytes =>
        match decode bytes with
        | Some r => Ok r
        | None => Raise (AudioDecodeError path)
        end
    end.

(** Lines 45-49: the resampling step. *)
Definition resample_if_needed (self : dataset) (waveform : tensor sample)
    (sample_rate : Z) : M (tensor sample) :=
  if negb (sample_rate =? sampling_rate self)
  then call (EvResample sample_rate (sampling_rate self) waveform)
         (Resample sample_rate (sampling_rate self) waveform)
  else mret waveform.

(** Lines 62-68: pad or truncate to the target length. *)
Definition pad_or_truncate (mel_features : tensor sample) (target_length : Z)
  : result (tensor sample) :=
  (n <- size_last mel_features ;;
   if n <? target_length
   then (n' <- size_last mel_features ;;
         let padding := target_length - n' in
         F_pad mel_features 0 padding zero)
   else slice_dim1 mel_features target_length)%result.

Definition __getitem__ (self : dataset) (idx : Z) : M (tensor sample * Z) :=
  '(filename, label) <-- lift (Py.getitem (metadata self) idx) ;;
  let audio_path := path_join (audio_dir self) (filename ++ ".flac") in
  '(waveform, sample_rate) <-- torchaudio_load audio_path ;;
  waveform <-- resample_if_needed self waveform sample_rate ;;
  let waveform := squeeze0 waveform in
  features <-- call (EvFeatureExtractor waveform (sampling_rate self))
                 (feature_extractor waveform (sampling_rate self)) ;;
  let mel_features := squeeze0 features in
  mel_features <-- lift (pad_or_truncate mel_features (target_length self)) ;;
  mret (mel_features, label).

(** ** Vocabulary for the statements *)

(** Item [idx] is in the metadata, its file is on disk and decodes to
    [waveform] at [sample_rate]. *)
Definition decodes_to (self : dataset) (idx : Z) (filename : string)
    (label : Z) (waveform : tensor sample) (sample_rate : Z) : Prop :=
  Py.getitem (metadata self) idx = Ok (filename, label)
  /\ exists bytes,
       audio_files (path_join (audio_dir self) (filename ++ ".flac")) = Some bytes
       /\ decode bytes = Some (waveform, sample_rate).

(** Item [idx] gets as far as the front-end, which answers [features]
    on the waveform [passed] to it. *)
Definition front_end_output (self : dataset) (idx : Z) (label : Z)
    (passed features : tensor sample) : Prop :=
  exists filename waveform sample_rate waveform',
    decodes_to self idx filename label waveform sample_rate
    /\ snd (resample_if_needed self waveform sample_rate) = Ok waveform'
    /\ passed = squeeze0 waveform'
    /\ feature_extractor passed (sampling_rate self) = Ok features.

End Pipeline.

Arguments EvLoad {sample} path.
Arguments EvResample {sample} orig_freq new_freq waveform.
Arguments EvFeatureExtractor {sample} waveform sampling_rate.

(** ** Test doubles

    A small protocol directory, used to run the loader on concrete files. *)

Module Fixture.

Definition nl : string := String Py.LF EmptyString.

Definition train_protocol : string :=
  "LA_0001 LA_T_0001 - - bonafide" ++ nl ++ "LA_0001 LA_T_0002 - - spoof" ++ nl.

Definition short_protocol : string :=
  "LA_0001 LA_T_0001 - - bonafide" ++ nl ++ "LA_0001 LA_T_0002 -" ++ nl.

Definition protocol_fs : filesystem :=
  fun path =>
    if String.eqb path "train.trn.txt" then Some train_protocol
    else if String.eqb path "short.trn.txt" then Some short_protocol
    else None.

(** An audio directory and stand-ins for the libraries: a file holds
    its waveform and rate, the resampler repeats every sample, and the
    front-end answers two rows with one frame per sample. *)

Definition mono (frames : list Z) : tensor Z :=
  mkTensor [1%nat; List.length frames] frames.

Definition stereo : tensor Z := mkTensor [2%nat; 3%nat] [1; 2; 3; 4; 5; 6].

Definition audio_files (path : string) : option (option (tensor Z * Z)) :=
  if String.eqb path "flac/LA_T_0001.flac" then Some (Some (mono [7; 8], 16000))
  else if String.eqb path "flac/LA_T_0002.flac"
       then Some (Some (mono [1; 2; 3], 8000))
  else if String.eqb path "flac/LA_T_0003.flac" then Some (Some (stereo, 16000))
  else if String.eqb path "flac/LA_T_0004.flac"
       then Some (Some (mono [5; 6; 7; 8], 16000))
  else None.

Definition path_join (dir name : string) : string := dir ++ "/" ++ name.

Definition decode (bytes : option (tensor Z * Z)) : option (tensor Z * Z) := bytes.

Definition Resample (orig_freq new_freq : Z) (w : tensor Z) : result (tensor Z) :=
  match shape w with
  | [c; n] => Ok (mkTensor [c; (2 * n)%nat] (flat_map (fun x => [x; x]) (data w)))
  | _ => Raise (LibraryError "Resample")
  end.

Definition feature_extractor (w : tensor Z) (rate : Z) : result (tensor Z) :=
  Ok (mkTensor [1%nat; 2%nat; List.length (data w)]
        (data w ++ map Z.opp (data w))%list).

Definition ds : dataset :=
  mkDataset "flac"
    [("LA_T_0001", 0); ("LA_T_0002", 1); ("LA_T_0003", 1);
     ("LA_T_0004", 0); ("LA_T_0005", 1)]
    16000 4.

Definition getitem : dataset -> Z -> list (event Z) * result (tensor Z * Z) :=
  __getitem__ Z 0 (option (tensor Z * Z)) audio_files path_join decode
    Resample feature_extractor.

Definition decodes := decodes_to Z (option (tensor Z * Z)) audio_files path_join decode.

Definition front_end :=
  front_end_output Z (option (tensor Z * Z)) audio_files path_join decode
    Resample feature_extractor.

End Fixture.

(** ** Whitespace, for statements about fields *)

Fixpoint all_whitespace (s : string) : bool :=
  match s with
  | EmptyString => true
  | String c rest => Py.isspace c && all_whitespace rest
  end.

Fixpoint has_whitespace (s : string) : bool :=
  match s with
  | EmptyString => false
  | String c rest => Py.isspace c || has_whitespace rest
  end.

(** ** The extraction script (lines 72-95) *)

Module Script.

Section Loop.

Variable sample : Type.
Variable zero : sample.
Variable audio_bytes : Type.
Variable audio_files : string -> option audio_bytes.
Variable path_join : string -> string -> string.
Variable decode : audio_bytes -> option (tensor sample * Z).
Variable Resample : Z -> Z -> tensor sample -> result (tensor sample).
Variable feature_extractor : tensor sample -> Z -> result (tensor sample).

(** [whisper_model.encoder(mel_features).last_hidden_state] *)
Variable encoder : tensor sample -> result (tensor sample).

(** With [shuffle=False] the loader draws [range(len(dataset))]. *)
Definition sequential_sampler (self : dataset) : list Z :=
  map Z.of_nat (seq 0 (Z.to_nat (__len__ self))).

(** The scan of the batch sampler without [drop_last]: an index joins the
    current batch, a batch of [batch_size] indices is given out, and what
    is left at the end is given out when it is not empty. *)
Fixpoint batch_sampler_scan (batch_size : nat) (batch sampler : list Z)
  : list (list Z) :=
  match sampler with
  | [] => match batch with [] => [] | _ => [batch] end
  | idx :: rest =>
      let batch' := (batch ++ [idx])%list in
      if (List.length batch' =? batch_size)%nat
      then batch' :: batch_sampler_scan batch_size [] rest
      else batch_sampler_scan batch_size batch' rest
  end.

Definition batch_sampler (batch_size : nat) (sampler : list Z) : list (list Z) :=
  batch_sampler_scan batch_size [] sampler.

(** [len(dataloader)] *)
Definition dataloader_len (self : dataset) (batch_size : nat) : nat :=
  ((Z.to_nat (__len__ self) + batch_size - 1) / batch_size)%nat.

Fixpoint shape_eqb (s1 s2 : list nat) : bool :=
  match s1, s2 with
  | [], [] => true
  | d1 :: r1, d2 :: r2 => (d1 =? d2)%nat && shape_eqb r1 r2
  | _, _ => false
  end.

(** [torch.stack(tensors, 0)]: a new leading dimension; it raises on an
    empty list and on tensors of different shapes. *)
Definition stack (tensors : list (tensor sample)) : result (tensor sample) :=
  match tensors with
  | [] => Raise (LibraryError "stack")
  | t :: rest =>
      if forallb (fun u => shape_eqb (shape u) (shape t)) rest
      then Ok (mkTensor (List.length tensors :: shape t)
                 (List.concat (map data tensors)))
      else Raise (LibraryError "stack")
  end.

(** The default collation of a list of [(mel_features, label)] pairs:
    the matrices stacked, the labels side by side. *)
Definition default_collate (batch : list (tensor sample * Z))
  : result (tensor sample * list Z) :=
  (mel_features <- stack (map fst batch) ;;
   Ok (mel_features, map snd batch))%result.

(** [[dataset[idx] for idx in batch]] *)
Fixpoint fetch (self : dataset) (batch : list Z)
  : M sample (list (tensor sample * Z)) :=
  match batch with
  | [] => mret sample []
  | idx :: rest =>
      mbind sample
        (__getitem__ sample zero audio_bytes audio_files path_join decode
           Resample feature_extractor self idx)
        (fun item =>
           mbind sample (fetch self rest)
             (fun items => mret sample (item :: items)))
  end.

(** One step of the iteration over the loader. *)
Definition next_batch (self : dataset) (batch : list Z)
  : M sample (tensor sample * list Z) :=
  mbind sample (fetch self batch) (fun items => lift sample (default_collate items)).

(** [path] is where the file of entry [idx] is looked for. *)
Definition loads_item (self : dataset) (idx : Z) (path : string) : Prop :=
  exists filename label,
    Py.getitem (metadata self) idx = Ok (filename, label)
    /\ path = path_join (audio_dir self) (filename ++ ".flac").

(** What the script does outside itself: the calls of the dataset, and
    the calls of the encoder. *)
Inductive script_event : Type :=
| EvDataset (ev : event sample)
| EvEncoder (mel_features : tensor sample).

(** The [for] loop over the loader; its value is the list of what each
    pass computes, [(whisper_features, labels)]. *)
Fixpoint extraction_loop (self : dataset) (batches : list (list Z))
  : list script_event * result (list (tensor sample * list Z)) :=
  match batches with
  | [] => ([], Ok [])
  | batch :: rest =>
      match next_batch self batch with
      | (tr, Raise e) => (map EvDataset tr, Raise e)
      | (tr, Ok (mel_features, labels)) =>
          match encoder mel_features with
          | Raise e => ((map EvDataset tr ++ [EvEncoder mel_features])%list, Raise e)
          | Ok whisper_features =>
              match extraction_loop self rest with
              | (tr', Raise e) =>
                  ((map EvDataset tr ++ EvEncoder mel_features :: tr')%list, Raise e)
              | (tr', Ok outs) =>
                  ((map EvDataset tr ++ EvEncoder mel_features :: tr')%list,
                   Ok ((whisper_features, labels) :: outs))
              end
          end
      end
  end.

Definition audio_dir : string :=
  "dataset\ASVspoof2019\LA\ASVspoof2019_LA_train\flac".

Definition metadata_path : string :=
  "dataset\ASVspoof2019\LA\ASVspoof2019_LA_cm_protocols\ASVspoof2019.LA.cm.train.trn.txt".

Definition batch_size : nat := 32.

(** Lines 78-95, on the protocol files [fs]. *)
Definition main (fs : filesystem)
  : list script_event * result (list (tensor sample * list Z)) :=
  match __init__ fs audio_dir metadata_path None None with
  | Raise e => ([], Raise e)
  | Ok dataset =>
      extraction_loop dataset (batch_sampler batch_size (sequential_sampler dataset))
  end.

(** The paths loaded in a run, in order, and the number of encoder
    calls. *)
Fixpoint loaded_paths (trace : list script_event) : list string :=
  match trace with
  | [] => []
  | EvDataset (EvLoad path) :: rest => path :: loaded_paths rest
  | _ :: rest => loaded_paths rest
  end.

Fixpoint encoder_calls (trace : list script_event) : nat :=
  match trace with
  | [] => 0%nat
  | EvEncoder _ :: rest => S (encoder_calls rest)
  | _ :: rest => encoder_calls rest
  end.

End Loop.

Arguments EvDataset {sample} ev.
Arguments EvEncoder {sample} mel_features.
Arguments loaded_paths {sample} trace.
Arguments encoder_calls {sample} trace.

End Script.

(** ** Test doubles that fail, and test doubles for the script *)

Module Faulty.

(** A directory with one file that does not decode, and libraries that
    raise. *)
Definition audio_files (path : string) : option (option (tensor Z * Z)) :=
  if String.eqb path "flac/LA_T_0001.flac" then Some None
  else if String.eqb path "flac/LA_T_0002.flac"
       then Some (Some (Fixture.mono [1; 2; 3], 8000))
  else if String.eqb path "flac/LA_T_0003.flac"
       then Some (Some (Fixture.mono [1; 2], 16000))
  else None.

Definition Resample (orig_freq new_freq : Z) (w : tensor Z) : result (tensor Z) :=
  Raise (LibraryError "Resample").

Definition feature_extractor (w : tensor Z) (rate : Z) : result (tensor Z) :=
  Raise (LibraryError "feature_extractor").

Definition getitem : dataset -> Z -> list (event Z) * result (tensor Z * Z) :=
  __getitem__ Z 0 (option (tensor Z * Z)) audio_files Fixture.path_join
    Fixture.decode Resample feature_extractor.

Definition decodes :=
  decodes_to Z (option (tensor Z * Z)) audio_files Fixture.path_join Fixture.decode.

End Faulty.

Module ScriptFixture.

(** The protocol file at the path of the script, a directory where every
    path holds the same short recording, and an encoder that answers its
    input. *)
Definition fs : filesystem :=
  fun path =>
    if String.eqb path Script.metadata_path then Some Fixture.train_protocol
    else None.

Definition audio_files (path : string) : option (option (tensor Z * Z)) :=
  Some (Some (Fixture.mono [7; 8], 16000)).

Definition encoder (mel_features : tensor Z) : result (tensor Z) := Ok mel_features.

Definition main :=
  Script.main Z 0 (option (tensor Z * Z)) audio_files Fixture.path_join
    Fixture.decode Fixture.Resample Fixture.feature_extractor encoder fs.

Definition extraction_loop :=
  Script.extraction_loop Z 0 (option (tensor Z * Z)) Fixture.audio_files
    Fixture.path_join Fixture.decode Fixture.Resample Fixture.feature_extractor
    encoder.

Definition fetch :=
  Script.fetch Z 0 (option (tensor Z * Z)) Fixture.audio_files
    Fixture.path_join Fixture.decode Fixture.Resample Fixture.feature_extractor.

Definition next_batch :=
  Script.next_batch Z 0 (option (tensor Z * Z)) Fixture.audio_files
    Fixture.path_join Fixture.decode Fixture.Resample Fixture.feature_extractor.

End ScriptFixture.

(** * Properties of the metadata loader *)

Section LoaderFacts.

Lemma getitem_nat {A} (l : list A) (i : nat) :
  Py.getitem l (Z.of_nat i)
  = match nth_error l i with Some a => Ok a | None => Raise IndexError end.
Proof.
  unfold Py.getitem.
  destruct (Z.ltb_spec (Z.of_nat i) 0) as [Hneg | _]; [lia |].
  destruct (Z.ltb_spec (Z.of_nat i) 0) as [Hneg | _]; [lia |].
  rewrite Nat2Z.id. cbn [orb].
  destruct (Z.leb_spec (Z.of_nat (List.length l)) (Z.of_nat i)) as [Hout | Hin].
  - assert (Hnone : nth_error l i = None) by (apply nth_error_None; lia).
    now rewrite Hnone.
  - reflexivity.
Qed.

Lemma getitem_short {A} (l : list A) (i : nat) :
  (List.length l <= i)%nat -> Py.getitem l (Z.of_nat i) = Raise IndexError.
Proof.
  intros Hlen. rewrite getitem_nat.
  now rewrite (proj2 (nth_error_None l i) Hlen).
Qed.

Lemma nth_error_some_of_length {A} (l : list A) (i : nat) :
  (i < List.length l)%nat -> exists a, nth_error l i = Some a.
Proof.
  intros Hlt. destruct (nth_error l i) as [a |] eqn:E; [now exists a |].
  apply nth_error_None in E. lia.
Qed.

(** [parse_line] succeeds exactly with field 1 and the label of field 4. *)
Lemma parse_line_ok_iff (line filename : string) (label : Z) :
  parse_line line = Ok (filename, label)
  <-> nth_error (fields line) 1 = Some filename
      /\ exists field4, nth_error (fields line) 4 = Some field4
                        /\ label = label_of field4.
Proof.
  unfold parse_line. cbv zeta.
  change 1 with (Z.of_nat 1). change 4 with (Z.of_nat 4).
  rewrite !getitem_nat.
  destruct (nth_error (fields line) 1) as [f1 |]; cbn [rbind].
  - destruct (nth_error (fields line) 4) as [f4 |]; cbn [rbind].
    + split.
      * intros H. injection H as <- <-. split; [reflexivity |].
        now exists f4.
      * intros [Hf [f4' [H4 ->]]]. now injection Hf as <-; injection H4 as <-.
    + split; [discriminate |]. now intros [_ [f4' [H4 _]]].
  - split; [discriminate |]. now intros [Hf _].
Qed.

(** The only exception of [parse_line] is [IndexError], raised exactly
    on a line of fewer than five fields. *)
Lemma parse_line_short (line : string) :
  (List.length (fields line) < 5)%nat -> parse_line line = Raise IndexError.
Proof.
  intros Hlen. unfold parse_line. cbv zeta.
  change 1 with (Z.of_nat 1). change 4 with (Z.of_nat 4).
  rewrite (getitem_short (fields line) 4) by lia.
  rewrite getitem_nat. now destruct (nth_error (fields line) 1).
Qed.

Lemma parse_line_long (line : string) :
  (5 <= List.length (fields line))%nat ->
  exists filename field4,
    nth_error (fields line) 1 = Some filename
    /\ nth_error (fields line) 4 = Some field4
    /\ parse_line line = Ok (filename, label_of field4).
Proof.
  intros Hlen.
  destruct (nth_error_some_of_length (fields line) 1) as [f1 H1]; [lia |].
  destruct (nth_error_some_of_length (fields line) 4) as [f4 H4]; [lia |].
  exists f1, f4. repeat split; trivial.
  apply parse_line_ok_iff. split; [exact H1 |]. now exists f4.
Qed.

Lemma parse_line_raises (line : string) (e : exn) :
  parse_line line = Raise e ->
  e = IndexError /\ (List.length (fields line) < 5)%nat.
Proof.
  intros Hr.
  destruct (Nat.lt_ge_cases (List.length (fields line)) 5) as [Hlt | Hge].
  - rewrite (parse_line_short line Hlt) in Hr. now injection Hr as <-.
  - destruct (parse_line_long line Hge) as (f1 & f4 & _ & _ & Hok).
    congruence.
Qed.

(** The loop appends one entry per line to what it was given, in the
    order of the lines. *)
Lemma load_metadata_loop_ok (lines : list string) :
  forall data out,
    load_metadata_loop lines data = Ok out ->
    exists es,
      out = (data ++ es)%list
      /\ Forall2 (fun line e => parse_line line = Ok e) lines es.
Proof.
  induction lines as [| line rest IH]; intros data out Hrun; cbn in Hrun.
  - injection Hrun as <-. exists []. split; [now rewrite app_nil_r | constructor].
  - destruct (parse_line line) as [e | err] eqn:Hline; cbn in Hrun; [| discriminate].
    destruct (IH _ _ Hrun) as (es & -> & Hall).
    exists (e :: es). split; [now rewrite <- app_assoc | now constructor].
Qed.

Lemma load_metadata_loop_total (lines : list string) :
  Forall (fun line => (5 <= List.length (fields line))%nat) lines ->
  forall data, is_ok (load_metadata_loop lines data) = true.
Proof.
  induction 1 as [| line rest Hline _ IH]; intros data; cbn; [reflexivity |].
  destruct (parse_line_long line Hline) as (f1 & f4 & _ & _ & ->). cbn.
  apply IH.
Qed.

(** One malformed line anywhere makes the whole loop raise. *)
Lemma load_metadata_loop_raises (lines : list string) (bad : string) :
  In bad lines -> (List.length (fields bad) < 5)%nat ->
  forall data, load_metadata_loop lines data = Raise IndexError.
Proof.
  induction lines as [| line rest IH]; intros Hin Hbad data; [contradiction |].
  cbn. destruct (parse_line line) as [e | err] eqn:Hline; cbn.
  - destruct Hin as [-> | Hin].
    + rewrite (parse_line_short bad Hbad) in Hline. discriminate.
    + now apply IH.
  - now destruct (parse_line_raises line err Hline) as [-> _].
Qed.

End LoaderFacts.

(** ** The claims on the metadata loader *)

(** C1. For every line the loader parses, the label is 0 when field 4 is
    the literal "bonafide" and 1 for any other field 4; the line
    [LA_0001 LA_T_0001 - - bonafide] gives the entry ("LA_T_0001", 0) and
    the line [LA_0001 LA_T_0002 - - spoof] gives ("LA_T_0002", 1), alone
    and as the lines of a protocol file. *)
Theorem parse_line_label :
  (forall line field4,
      nth_error (fields line) 4 = Some field4 ->
      exists filename,
        nth_error (fields line) 1 = Some filename
        /\ (field4 = "bonafide" -> parse_line line = Ok (filename, 0))
        /\ (field4 <> "bonafide" -> parse_line line = Ok (filename, 1)))
  /\ parse_line "LA_0001 LA_T_0001 - - bonafide" = Ok ("LA_T_0001", 0)
  /\ parse_line "LA_0001 LA_T_0002 - - spoof" = Ok ("LA_T_0002", 1)
  /\ load_metadata Fixture.protocol_fs "train.trn.txt"
     = Ok [("LA_T_0001", 0); ("LA_T_0002", 1)].
Proof.
  split; [| repeat split; reflexivity].
  intros line field4 H4.
  assert (Hlen : (5 <= List.length (fields line))%nat).
  { assert (Hsome : nth_error (fields line) 4 <> None) by congruence.
    apply nth_error_Some in Hsome. lia. }
  destruct (parse_line_long line Hlen) as (f1 & f4 & H1 & H4' & Hok).
  assert (f4 = field4) as -> by congruence.
  exists f1. split; [exact H1 |]. rewrite Hok. unfold label_of. split.
  - intros ->. reflexivity.
  - intros Hne. now rewrite (proj2 (String.eqb_neq field4 "bonafide") Hne).
Qed.

Lemma parse_line_label_witness :
  exists filename,
    nth_error (fields "PA_0042 PA_D_0007 aa bb genuine") 1 = Some filename
    /\ ("genuine" = "bonafide"
        -> parse_line "PA_0042 PA_D_0007 aa bb genuine" = Ok (filename, 0))
    /\ ("genuine" <> "bonafide"
        -> parse_line "PA_0042 PA_D_0007 aa bb genuine" = Ok (filename, 1)).
Proof.
  apply (proj1 parse_line_label "PA_0042 PA_D_0007 aa bb genuine" "genuine").
  reflexivity.
Defined.

(** C5. The loader raises, and returns no entries at all, when the protocol
    file is missing ([FileNotFoundError]) or when some line of it has fewer
    than five whitespace-separated fields ([IndexError]). *)
Theorem load_metadata_fatal (fs : filesystem) (path : string)
    (Hbad : fs path = None
            \/ exists contents bad,
                 fs path = Some contents
                 /\ In bad (Py.readlines contents)
                 /\ (List.length (fields bad) < 5)%nat) :
  load_metadata fs path
  = Raise (match fs path with
           | None => FileNotFoundError path
           | Some _ => IndexError
           end).
Proof.
  unfold load_metadata, open_readlines.
  destruct Hbad as [Hnone | (contents & bad & Hsome & Hin & Hshort)].
  - now rewrite Hnone.
  - rewrite Hsome. cbn [rbind].
    now apply load_metadata_loop_raises with (bad := bad).
Qed.

Lemma load_metadata_fatal_witness :
  load_metadata Fixture.protocol_fs "absent.txt"
  = Raise (FileNotFoundError "absent.txt")
  /\ load_metadata Fixture.protocol_fs "short.trn.txt" = Raise IndexError.
Proof.
  split.
  - apply (load_metadata_fatal Fixture.protocol_fs "absent.txt").
    left. reflexivity.
  - apply (load_metadata_fatal Fixture.protocol_fs "short.trn.txt").
    right. exists Fixture.short_protocol, ("LA_0001 LA_T_0002 -" ++ Fixture.nl).
    split; [reflexivity |]. split; [| vm_compute; lia].
    vm_compute. right. left. reflexivity.
Defined.

(** C6. On a protocol file whose lines all have at least five fields the
    loader returns; and whatever it returns has exactly one pair per line,
    the pair at position [i] carrying field 1 of line [i] as its filename,
    so the pairs are in the order of the lines. *)
Theorem load_metadata_in_file_order (fs : filesystem) (path contents : string)
    (Hfile : fs path = Some contents) :
  (Forall (fun line => (5 <= List.length (fields line))%nat)
     (Py.readlines contents) ->
   is_ok (load_metadata fs path) = true)
  /\ forall data,
       load_metadata fs path = Ok data ->
       List.length data = List.length (Py.readlines contents)
       /\ forall i line,
            nth_error (Py.readlines contents) i = Some line ->
            exists filename label,
              nth_error data i = Some (filename, label)
              /\ nth_error (fields line) 1 = Some filename
              /\ parse_line line = Ok (filename, label).
Proof.
  unfold load_metadata, open_readlines. rewrite Hfile. cbn [rbind]. split.
  - intros Hall. now apply load_metadata_loop_total.
  - intros data Hrun.
    destruct (load_metadata_loop_ok _ _ _ Hrun) as (es & -> & Hall).
    cbn [app]. split.
    + symmetry. exact (Forall2_length Hall).
    + clear Hrun. induction Hall as [| line0 e0 lines es Hhead Htail IH];
        intros i line Hnth.
      * destruct i; discriminate.
      * destruct i as [| i]; cbn in Hnth |- *.
        -- injection Hnth as <-. destruct e0 as [filename label].
           exists filename, label. repeat split; trivial.
           now apply (proj1 (parse_line_ok_iff line0 filename label)).
        -- now apply IH.
Qed.

Lemma load_metadata_in_file_order_witness :
  (Forall (fun line => (5 <= List.length (fields line))%nat)
     (Py.readlines Fixture.train_protocol) ->
   is_ok (load_metadata Fixture.protocol_fs "train.trn.txt") = true)
  /\ forall data,
       load_metadata Fixture.protocol_fs "train.trn.txt" = Ok data ->
       List.length data = List.length (Py.readlines Fixture.train_protocol)
       /\ forall i line,
            nth_error (Py.readlines Fixture.train_protocol) i = Some line ->
            exists filename label,
              nth_error data i = Some (filename, label)
              /\ nth_error (fields line) 1 = Some filename
              /\ parse_line line = Ok (filename, label).
Proof.
  apply (load_metadata_in_file_order Fixture.protocol_fs "train.trn.txt"
           Fixture.train_protocol).
  reflexivity.
Defined.

(** C9. Two lines of at least five fields that agree on field 1 and on
    field 4 are parsed, and to the same entry: fields 0, 2, 3 and those
    past index 4 do not reach the entry. *)
Theorem parse_line_ignores_other_fields (line1 line2 : string)
    (Hlen1 : (5 <= List.length (fields line1))%nat)
    (Hlen2 : (5 <= List.length (fields line2))%nat)
    (Hf1 : nth_error (fields line1) 1 = nth_error (fields line2) 1)
    (Hf4 : nth_error (fields line1) 4 = nth_error (fields line2) 4) :
  parse_line line1 = parse_line line2
  /\ is_ok (parse_line line1) = true.
Proof.
  destruct (parse_line_long line1 Hlen1) as (a1 & a4 & Ha1 & Ha4 & Hok1).
  destruct (parse_line_long line2 Hlen2) as (b1 & b4 & Hb1 & Hb4 & Hok2).
  rewrite Hok1, Hok2. split; [| reflexivity].
  assert (a1 = b1) as -> by congruence.
  assert (a4 = b4) as -> by congruence.
  reflexivity.
Qed.

Lemma parse_line_ignores_other_fields_witness :
  parse_line "LA_0001 LA_T_0001 - - spoof"
  = parse_line "LA_0079 LA_T_0001 A07 x spoof extra columns"
  /\ is_ok (parse_line "LA_0001 LA_T_0001 - - spoof") = true.
Proof.
  apply (parse_line_ignores_other_fields
           "LA_0001 LA_T_0001 - - spoof"
           "LA_0079 LA_T_0001 A07 x spoof extra columns").
  - vm_compute. lia.
  - vm_compute. lia.
  - vm_compute. reflexivity.
  - vm_compute. reflexivity.
Defined.

(** * Properties of the tensor operations *)

Section TensorFacts.

Context {A : Type}.
Implicit Types (d row : list A) (rows : list (list A)) (t : tensor A).

Lemma blocks_succ (count n : nat) d :
  blocks (S count) n d = firstn n d :: blocks count n (skipn n d).
Proof.
  unfold blocks. cbn [seq map]. f_equal.
  rewrite <- seq_shift, map_map. apply map_ext. intros i.
  rewrite skipn_skipn. do 2 f_equal. lia.
Qed.

Lemma blocks_length (count n : nat) d : List.length (blocks count n d) = count.
Proof. unfold blocks. now rewrite length_map, length_seq. Qed.

(** Cutting the concatenation of rows of one length gives the rows back. *)
Lemma blocks_concat (n : nat) rows :
  Forall (fun row => List.length row = n) rows ->
  blocks (List.length rows) n (List.concat rows) = rows.
Proof.
  induction 1 as [| row rows Hrow _ IH]; [reflexivity |].
  cbn [List.length List.concat]. rewrite blocks_succ. f_equal.
  - rewrite firstn_app, firstn_all2 by lia.
    replace (n - List.length row)%nat with 0%nat by lia. apply app_nil_r.
  - rewrite skipn_app, skipn_all2 by lia.
    replace (n - List.length row)%nat with 0%nat by lia. exact IH.
Qed.

(** Gluing the blocks of a list of [count * n] elements gives it back. *)
Lemma concat_blocks (count n : nat) :
  forall d, List.length d = (count * n)%nat ->
            List.concat (blocks count n d) = d.
Proof.
  induction count as [| count IH]; intros d Hlen.
  - destruct d; [reflexivity | discriminate].
  - rewrite blocks_succ. cbn [List.concat]. rewrite IH.
    + apply firstn_skipn.
    + rewrite length_skipn. lia.
Qed.

Lemma blocks_all_full (count n : nat) :
  forall d, (count * n <= List.length d)%nat ->
            Forall (fun row => List.length row = n) (blocks count n d).
Proof.
  induction count as [| count IH]; intros d Hlen; [constructor |].
  rewrite blocks_succ. constructor.
  - rewrite length_firstn. lia.
  - apply IH. rewrite length_skipn. lia.
Qed.

Lemma pad_row_right (value : A) (p : Z) row :
  0 <= p -> pad_row 0 p value row = (row ++ repeat value (Z.to_nat p))%list.
Proof.
  intros Hp. unfold pad_row. cbn [Z.ltb Z.compare Z.to_nat repeat app].
  destruct (Z.ltb_spec p 0); [lia | reflexivity].
Qed.

Lemma slice_stop_within (n : nat) (stop : Z) :
  0 <= stop <= Z.of_nat n -> slice_stop n stop = Z.to_nat stop.
Proof.
  intros Hs. unfold slice_stop.
  destruct (Z.ltb_spec stop 0); lia.
Qed.

Lemma squeeze0_data t : data (squeeze0 t) = data t.
Proof.
  unfold squeeze0. destruct (shape t) as [| [| [| k]] s]; reflexivity.
Qed.

Lemma squeeze0_one (s : list nat) d :
  squeeze0 (mkTensor (1%nat :: s) d) = mkTensor s d.
Proof. reflexivity. Qed.

Lemma squeeze0_other t (c : nat) (s : list nat) :
  shape t = c :: s -> c <> 1%nat -> squeeze0 t = t.
Proof.
  intros Hs Hc. unfold squeeze0. rewrite Hs.
  destruct c as [| [| k]]; [reflexivity | contradiction | reflexivity].
Qed.

Lemma size_last_matrix t (r n : nat) :
  shape t = [r; n] -> size_last t = Ok (Z.of_nat n).
Proof. intros Hs. unfold size_last. now rewrite Hs. Qed.

(** [F.pad] on a matrix, the way [__getitem__] calls it. *)
Lemma F_pad_matrix t (r n : nat) (p : Z) (value : A) :
  shape t = [r; n] -> 0 <= p ->
  F_pad t 0 p value
  = Ok (mkTensor [r; Z.to_nat (Z.of_nat n + p)]
          (List.concat
             (map (fun row => (row ++ repeat value (Z.to_nat p))%list)
                (blocks r n (data t))))).
Proof.
  intros Hs Hp. unfold F_pad. rewrite Hs. cbn [rev app numel fold_right].
  rewrite Z.add_0_r, Nat.mul_1_r.
  destruct (Z.ltb_spec (Z.of_nat n + p) 0); [lia |].
  destruct (Z.ltb_spec (Z.of_nat n) 0); [lia |]. cbn [orb].
  do 3 f_equal. apply map_ext. intros row. now apply pad_row_right.
Qed.

(** [t[:, :stop]] on a matrix, for a stop within its width. *)
Lemma slice_dim1_matrix t (r n : nat) (stop : Z) :
  shape t = [r; n] -> 0 <= stop <= Z.of_nat n ->
  slice_dim1 t stop
  = Ok (mkTensor [r; Z.to_nat stop]
          (List.concat (map (firstn (Z.to_nat stop)) (blocks r n (data t))))).
Proof.
  intros Hs Hstop. unfold slice_dim1. rewrite Hs. cbn [numel fold_right].
  now rewrite slice_stop_within, !Nat.mul_1_r.
Qed.

Lemma matrix_rows_concat (r n : nat) rows :
  List.length rows = r ->
  Forall (fun row => List.length row = n) rows ->
  matrix_rows (mkTensor [r; n] (List.concat rows)) = rows.
Proof.
  intros <- Hall. unfold matrix_rows. cbn [shape data].
  now apply blocks_concat.
Qed.

End TensorFacts.

(** * Properties of the per-item pipeline *)

Section PipelineFacts.

Context {sample : Type} (zero : sample).
Context {audio_bytes : Type} (audio_files : string -> option audio_bytes).
Context (path_join : string -> string -> string).
Context (decode : audio_bytes -> option (tensor sample * Z)).
Context (Resample : Z -> Z -> tensor sample -> result (tensor sample)).
Context (feature_extractor : tensor sample -> Z -> result (tensor sample)).

Local Abbreviation getitem :=
  (__getitem__ sample zero audio_bytes audio_files path_join decode
     Resample feature_extractor).
Local Abbreviation decodes :=
  (decodes_to sample audio_bytes audio_files path_join decode).
Local Abbreviation front_end :=
  (front_end_output sample audio_bytes audio_files path_join decode
     Resample feature_extractor).
Local Abbreviation resample_step := (resample_if_needed sample Resample).
Local Abbreviation pad_trunc := (pad_or_truncate sample zero).

Implicit Types (self : dataset) (t mel w : tensor sample).

(** *** Pad or truncate, on a matrix *)

Lemma pad_or_truncate_short t (r n : nat) (target : Z) :
  shape t = [r; n] -> Z.of_nat n < target ->
  pad_trunc t target
  = Ok (mkTensor [r; Z.to_nat target]
          (List.concat
             (map (fun row =>
                     (row ++ repeat zero (Z.to_nat (target - Z.of_nat n)))%list)
                (blocks r n (data t))))).
Proof.
  intros Hs Hlt. unfold pad_or_truncate.
  rewrite (size_last_matrix t r n Hs). cbn [rbind].
  destruct (Z.ltb_spec (Z.of_nat n) target); [| lia].
  rewrite (F_pad_matrix t r n _ zero Hs) by lia.
  now replace (Z.of_nat n + (target - Z.of_nat n)) with target by lia.
Qed.

Lemma pad_or_truncate_long t (r n : nat) (target : Z) :
  shape t = [r; n] -> 0 <= target <= Z.of_nat n ->
  pad_trunc t target
  = Ok (mkTensor [r; Z.to_nat target]
          (List.concat (map (firstn (Z.to_nat target)) (blocks r n (data t))))).
Proof.
  intros Hs Hle. unfold pad_or_truncate.
  rewrite (size_last_matrix t r n Hs). cbn [rbind].
  destruct (Z.ltb_spec (Z.of_nat n) target); [lia |].
  now apply slice_dim1_matrix.
Qed.

Lemma pad_or_truncate_shape t (r n : nat) (target : Z) :
  shape t = [r; n] -> 0 <= target ->
  exists mel, pad_trunc t target = Ok mel /\ shape mel = [r; Z.to_nat target].
Proof.
  intros Hs Hpos.
  destruct (Z.lt_ge_cases (Z.of_nat n) target) as [Hlt | Hge].
  - rewrite (pad_or_truncate_short t r n target Hs Hlt). now eexists.
  - rewrite (pad_or_truncate_long t r n target Hs) by lia. now eexists.
Qed.

Lemma pad_or_truncate_exact t (r n : nat) :
  shape t = [r; n] -> well_formed t -> pad_trunc t (Z.of_nat n) = Ok t.
Proof.
  intros Hs Hwf. rewrite (pad_or_truncate_long t r n _ Hs) by lia.
  rewrite Nat2Z.id. unfold well_formed in Hwf. rewrite Hs in Hwf.
  cbn [numel fold_right] in Hwf. rewrite Nat.mul_1_r in Hwf.
  assert (Hrows : map (firstn n) (blocks r n (data t)) = blocks r n (data t)).
  { assert (Hfull : Forall (fun row => List.length row = n) (blocks r n (data t)))
      by (apply blocks_all_full; lia).
    induction Hfull as [| row rows Hrow _ IH]; [reflexivity |].
    cbn [map]. rewrite IH. f_equal. apply firstn_all2. lia. }
  rewrite Hrows, (concat_blocks r n (data t) Hwf).
  destruct t as [s d]. cbn in Hs |- *. now subst s.
Qed.

(** *** The run of [__getitem__] *)

Lemma resample_step_same self w (sample_rate : Z) :
  sample_rate = sampling_rate self ->
  resample_step self w sample_rate = ([], Ok w).
Proof.
  intros ->. unfold resample_if_needed. now rewrite Z.eqb_refl.
Qed.

Lemma resample_step_differs self w (sample_rate : Z) :
  sample_rate <> sampling_rate self ->
  resample_step self w sample_rate
  = ([EvResample sample_rate (sampling_rate self) w],
     Resample sample_rate (sampling_rate self) w).
Proof.
  intros Hne. unfold resample_if_needed.
  now rewrite (proj2 (Z.eqb_neq _ _) Hne).
Qed.

(** Once the file is decoded, the rest of the run is the resampling
    step, one call of the front-end and the padding or truncation. *)
Lemma getitem_decoded self (idx : Z) (filename : string) (label : Z) w
    (sample_rate : Z) :
  decodes self idx filename label w sample_rate ->
  getitem self idx
  = let path := path_join (audio_dir self) (filename ++ ".flac") in
    match resample_step self w sample_rate with
    | (tr, Raise e) => (EvLoad path :: tr, Raise e)
    | (tr, Ok w') =>
        let passed := squeeze0 w' in
        (EvLoad path
           :: (tr ++ [EvFeatureExtractor passed (sampling_rate self)])%list,
         (features <- feature_extractor passed (sampling_rate self) ;;
          mel <- pad_trunc (squeeze0 features) (target_length self) ;;
          Ok (mel, label))%result)
    end.
Proof.
  intros [Hidx (bytes & Hfile & Hdec)].
  unfold __getitem__, lift, torchaudio_load, call.
  rewrite Hidx. cbn [mbind app]. rewrite Hfile, Hdec. cbn [mbind app].
  destruct (resample_step self w sample_rate) as [tr [w' | e]];
    cbn [mbind app]; [| now rewrite ?app_nil_r].
  destruct (feature_extractor (squeeze0 w') (sampling_rate self))
    as [features | e]; cbn [mbind app rbind]; [| now rewrite ?app_nil_r].
  destruct (pad_trunc (squeeze0 features) (target_length self)) as [mel | e];
    cbn [mbind app rbind mret]; now rewrite ?app_nil_r.
Qed.

Lemma getitem_front_end self (idx label : Z) (passed features : tensor sample) :
  front_end self idx label passed features ->
  snd (getitem self idx)
  = (mel <- pad_trunc (squeeze0 features) (target_length self) ;;
     Ok (mel, label))%result.
Proof.
  intros (filename & w & sample_rate & w' & Hdec & Hres & -> & Hfe).
  rewrite (getitem_decoded self idx filename label w sample_rate Hdec).
  cbv zeta. destruct (resample_step self w sample_rate) as [tr r].
  cbn [snd] in Hres. subst r. cbn [snd]. now rewrite Hfe.
Qed.

(** *** The claims on the per-item pipeline *)

(** C2. Whatever the duration of the audio, when the front-end answers
    with a feature matrix (two dimensions once the batch dimension is
    squeezed) and the configured target length is a length (not
    negative), [__getitem__] returns, and the time axis of the matrix it
    returns has exactly the target length; a dataset built without a
    [target_length] argument has target length 3000. *)
Theorem getitem_time_axis_length self (idx label : Z)
    (passed features : tensor sample)
    (Hrun : front_end self idx label passed features)
    (Hmat : ndim (squeeze0 features) = 2%nat)
    (Hpos : 0 <= target_length self) :
  (exists mel,
      snd (getitem self idx) = Ok (mel, label)
      /\ size_last mel = Ok (target_length self))
  /\ (forall fs dir protocol rate self',
         __init__ fs dir protocol rate None = Ok self' ->
         target_length self' = 3000).
Proof.
  split.
  - rewrite (getitem_front_end self idx label passed features Hrun).
    unfold ndim in Hmat.
    destruct (shape (squeeze0 features)) as [| r [| n [| x rest]]] eqn:Hs;
      try discriminate.
    destruct (pad_or_truncate_shape _ r n _ Hs Hpos) as (mel & -> & Hshape).
    exists mel. split; [reflexivity |].
    unfold size_last. rewrite Hshape. cbn [rev app]. f_equal. lia.
  - intros fs dir protocol rate self' Hinit. unfold __init__ in Hinit.
    destruct (load_metadata fs protocol) as [entries | e]; cbn in Hinit;
      [| discriminate].
    injection Hinit as <-. reflexivity.
Qed.

(** C3. On a feature matrix shorter than the target length the result is
    each row followed by zeros up to the target length; on one longer
    than the target length it is each row cut to its first target-length
    values, nothing added. *)
Theorem getitem_pads_right_or_truncates self (idx label : Z)
    (passed features : tensor sample) (r n : nat)
    (Hrun : front_end self idx label passed features)
    (Hshape : shape (squeeze0 features) = [r; n])
    (Hwf : well_formed (squeeze0 features))
    (Hpos : 0 <= target_length self) :
  exists mel,
    snd (getitem self idx) = Ok (mel, label)
    /\ shape mel = [r; Z.to_nat (target_length self)]
    /\ (Z.of_nat n < target_length self ->
        matrix_rows mel
        = map (fun row =>
                 (row ++ repeat zero
                           (Z.to_nat (target_length self - Z.of_nat n)))%list)
            (matrix_rows (squeeze0 features)))
    /\ (target_length self < Z.of_nat n ->
        matrix_rows mel
        = map (firstn (Z.to_nat (target_length self)))
            (matrix_rows (squeeze0 features))).
Proof.
  rewrite (getitem_front_end self idx label passed features Hrun).
  assert (Hfull : Forall (fun row => List.length row = n)
                    (blocks r n (data (squeeze0 features)))).
  { apply blocks_all_full. unfold well_formed in Hwf. rewrite Hshape in Hwf.
    cbn [numel fold_right] in Hwf. lia. }
  assert (Hrows : matrix_rows (squeeze0 features)
                  = blocks r n (data (squeeze0 features)))
    by (unfold matrix_rows; now rewrite Hshape).
  destruct (Z.lt_ge_cases (Z.of_nat n) (target_length self)) as [Hlt | Hge].
  - rewrite (pad_or_truncate_short _ r n _ Hshape Hlt). cbn [rbind].
    eexists. split; [reflexivity |]. split; [reflexivity |].
    split; [intros _ | lia].
    rewrite Hrows. apply matrix_rows_concat.
    + now rewrite length_map, blocks_length.
    + apply Forall_map. eapply Forall_impl; [| exact Hfull].
      cbn beta. intros row Hrow. rewrite length_app, repeat_length. lia.
  - rewrite (pad_or_truncate_long _ r n _ Hshape) by lia. cbn [rbind].
    eexists. split; [reflexivity |]. split; [reflexivity |].
    split; [lia | intros _].
    rewrite Hrows. apply matrix_rows_concat.
    + now rewrite length_map, blocks_length.
    + apply Forall_map. eapply Forall_impl; [| exact Hfull].
      cbn beta. intros row Hrow. rewrite length_firstn. lia.
Qed.

(** C10. On a feature matrix whose time length is exactly the target
    length, pad-or-truncate is the identity: [__getitem__] returns the
    matrix as the front-end gave it. *)
Theorem getitem_exact_length_unchanged self (idx label : Z)
    (passed features : tensor sample) (r n : nat)
    (Hrun : front_end self idx label passed features)
    (Hshape : shape (squeeze0 features) = [r; n])
    (Hwf : well_formed (squeeze0 features))
    (Hexact : target_length self = Z.of_nat n) :
  pad_trunc (squeeze0 features) (target_length self) = Ok (squeeze0 features)
  /\ snd (getitem self idx) = Ok (squeeze0 features, label).
Proof.
  assert (Hid : pad_trunc (squeeze0 features) (target_length self)
                = Ok (squeeze0 features))
    by (rewrite Hexact; now apply pad_or_truncate_exact with (r := r)).
  split; [exact Hid |].
  rewrite (getitem_front_end self idx label passed features Hrun).
  now rewrite Hid.
Qed.

(** C7. The resampler is called if and only if the native rate differs
    from the target rate; when it is called, its result is what goes on
    to the front-end; when the rates are equal the run is the load
    followed at once by the front-end, which gets the decoded waveform,
    its values untouched. *)
Theorem getitem_resamples_iff_rates_differ self (idx : Z) (filename : string)
    (label : Z) w (sample_rate : Z)
    (Hdec : decodes self idx filename label w sample_rate) :
  let path := path_join (audio_dir self) (filename ++ ".flac") in
  let trace := fst (getitem self idx) in
  ((exists orig new w0, In (EvResample orig new w0) trace)
   <-> sample_rate <> sampling_rate self)
  /\ (sample_rate <> sampling_rate self ->
      In (EvResample sample_rate (sampling_rate self) w) trace
      /\ forall w',
           Resample sample_rate (sampling_rate self) w = Ok w' ->
           trace = [EvLoad path;
                    EvResample sample_rate (sampling_rate self) w;
                    EvFeatureExtractor (squeeze0 w') (sampling_rate self)])
  /\ (sample_rate = sampling_rate self ->
      trace = [EvLoad path;
               EvFeatureExtractor (squeeze0 w) (sampling_rate self)]
      /\ data (squeeze0 w) = data w).
Proof.
  intros path trace. subst trace path.
  rewrite (getitem_decoded self idx filename label w sample_rate Hdec).
  cbv zeta.
  destruct (Z.eq_dec sample_rate (sampling_rate self)) as [Heq | Hne].
  - rewrite (resample_step_same self w sample_rate Heq). cbn [fst app].
    split; [| split].
    + split; [| contradiction].
      intros (orig & new & w0 & [Hin | [Hin | []]]); discriminate.
    + contradiction.
    + intros _. split; [reflexivity | apply squeeze0_data].
  - rewrite (resample_step_differs self w sample_rate Hne).
    split; [| split].
    + split; [now intros _ |]. intros _.
      exists sample_rate, (sampling_rate self), w.
      destruct (Resample sample_rate (sampling_rate self) w);
        cbn; right; now left.
    + intros _. split.
      * destruct (Resample sample_rate (sampling_rate self) w);
          cbn; right; now left.
      * intros w' ->. reflexivity.
    + contradiction.
Qed.

(** C8. When the audio file of an entry is not on disk, accessing the
    item raises the I/O error of the load, naming the path: nothing is
    returned for the item and the front-end is never called. *)
Theorem getitem_missing_audio_file self (idx : Z) (filename : string)
    (label : Z)
    (Hidx : Py.getitem (metadata self) idx = Ok (filename, label))
    (Hmissing :
       audio_files (path_join (audio_dir self) (filename ++ ".flac")) = None) :
  let path := path_join (audio_dir self) (filename ++ ".flac") in
  getitem self idx = ([EvLoad path], Raise (AudioIOError path))
  /\ (forall out, snd (getitem self idx) <> Ok out)
  /\ (forall w rate, ~ In (EvFeatureExtractor w rate) (fst (getitem self idx))).
Proof.
  intros path. subst path.
  assert (Hrun : getitem self idx
                 = ([EvLoad (path_join (audio_dir self) (filename ++ ".flac"))],
                    Raise (AudioIOError
                             (path_join (audio_dir self) (filename ++ ".flac"))))).
  { unfold __getitem__, lift, torchaudio_load, call.
    rewrite Hidx. cbn [mbind app]. rewrite Hmissing. reflexivity. }
  rewrite Hrun. cbn [fst snd]. split; [reflexivity |]. split.
  - intros out. discriminate.
  - intros w rate [Hin | []]. discriminate.
Qed.

(** C4, as the code has it. The front-end is called once, on the
    waveform after [squeeze(0)]: a waveform of one channel reaches it
    as that channel, one-dimensional; a waveform of any other number of
    channels reaches it as it is, with all its channels. *)
Theorem getitem_squeezes_channel_dimension self (idx : Z) (filename : string)
    (label : Z) (w w' : tensor sample) (sample_rate : Z)
    (Hdec : decodes self idx filename label w sample_rate)
    (Hres : snd (resample_step self w sample_rate) = Ok w') :
  (forall passed rate,
      In (EvFeatureExtractor passed rate) (fst (getitem self idx))
      <-> passed = squeeze0 w' /\ rate = sampling_rate self)
  /\ (forall n,
         shape w' = [1%nat; n] -> well_formed w' ->
         ndim (squeeze0 w') = 1%nat /\ select0 w' = Ok (squeeze0 w'))
  /\ (forall c n,
         shape w' = [c; n] -> c <> 1%nat ->
         squeeze0 w' = w' /\ ndim (squeeze0 w') = 2%nat).
Proof.
  split; [| split].
  - intros passed rate.
    rewrite (getitem_decoded self idx filename label w sample_rate Hdec).
    cbv zeta. unfold resample_if_needed in *.
    destruct (negb (sample_rate =? sampling_rate self)).
    + unfold call in *. cbn [snd] in Hres. rewrite Hres. cbn [fst app In].
      split.
      * intros [Hin | [Hin | [Hin | []]]]; try discriminate.
        now injection Hin as <- <-.
      * intros [-> ->]. right. right. now left.
    + unfold mret in *. cbn [snd] in Hres. injection Hres as <-.
      cbn [fst app In]. split.
      * intros [Hin | [Hin | []]]; try discriminate.
        now injection Hin as <- <-.
      * intros [-> ->]. right. now left.
  - intros n Hs Hwf. destruct w' as [s d]. cbn in Hs. subst s.
    unfold well_formed in Hwf. cbn in Hwf.
    unfold select0, squeeze0, ndim. cbn. split; [reflexivity |].
    do 2 f_equal. apply firstn_all2. lia.
  - intros c n Hs Hc. rewrite (squeeze0_other w' c [n] Hs Hc).
    split; [reflexivity |]. unfold ndim. now rewrite Hs.
Qed.

End PipelineFacts.

(** * The pipeline on the test doubles *)

Example getitem_short_file :
  Fixture.getitem Fixture.ds 0
  = ([EvLoad "flac/LA_T_0001.flac";
      EvFeatureExtractor (mkTensor [2%nat] [7; 8]) 16000],
     Ok (mkTensor [2%nat; 4%nat] [7; 8; 0; 0; -7; -8; 0; 0], 0)).
Proof. vm_compute. reflexivity. Qed.

Example getitem_long_file_other_rate :
  Fixture.getitem Fixture.ds 1
  = ([EvLoad "flac/LA_T_0002.flac";
      EvResample 8000 16000 (Fixture.mono [1; 2; 3]);
      EvFeatureExtractor (mkTensor [6%nat] [1; 1; 2; 2; 3; 3]) 16000],
     Ok (mkTensor [2%nat; 4%nat] [1; 1; 2; 2; -1; -1; -2; -2], 1)).
Proof. vm_compute. reflexivity. Qed.

Example getitem_last_entry_missing :
  Fixture.getitem Fixture.ds (-1)
  = ([EvLoad "flac/LA_T_0005.flac"], Raise (AudioIOError "flac/LA_T_0005.flac")).
Proof. vm_compute. reflexivity. Qed.

Ltac run_fixture :=
  repeat match goal with
         | |- _ /\ _ => split
         | |- exists bytes : option (tensor Z * Z), _ =>
             eexists; split; vm_compute; reflexivity
         | |- _ = _ => vm_compute; reflexivity
         end.

Lemma fixture_decodes_other_rate :
  Fixture.decodes Fixture.ds 1 "LA_T_0002" 1 (Fixture.mono [1; 2; 3]) 8000.
Proof. unfold Fixture.decodes, decodes_to. run_fixture. Qed.

Lemma fixture_decodes_stereo :
  Fixture.decodes Fixture.ds 2 "LA_T_0003" 1 Fixture.stereo 16000.
Proof. unfold Fixture.decodes, decodes_to. run_fixture. Qed.

Lemma fixture_front_end_short :
  Fixture.front_end Fixture.ds 0 0
    (mkTensor [2%nat] [7; 8]) (mkTensor [1%nat; 2%nat; 2%nat] [7; 8; -7; -8]).
Proof.
  exists "LA_T_0001", (Fixture.mono [7; 8]), 16000, (Fixture.mono [7; 8]).
  unfold decodes_to. run_fixture.
Qed.

Lemma fixture_front_end_long :
  Fixture.front_end Fixture.ds 1 1
    (mkTensor [6%nat] [1; 1; 2; 2; 3; 3])
    (mkTensor [1%nat; 2%nat; 6%nat] [1; 1; 2; 2; 3; 3; -1; -1; -2; -2; -3; -3]).
Proof.
  exists "LA_T_0002", (Fixture.mono [1; 2; 3]), 8000,
    (mkTensor [1%nat; 6%nat] [1; 1; 2; 2; 3; 3]).
  unfold decodes_to. run_fixture.
Qed.

Lemma fixture_front_end_exact :
  Fixture.front_end Fixture.ds 3 0
    (mkTensor [4%nat] [5; 6; 7; 8])
    (mkTensor [1%nat; 2%nat; 4%nat] [5; 6; 7; 8; -5; -6; -7; -8]).
Proof.
  exists "LA_T_0004", (Fixture.mono [5; 6; 7; 8]), 16000, (Fixture.mono [5; 6; 7; 8]).
  unfold decodes_to. run_fixture.
Qed.

Lemma getitem_time_axis_length_witness :
  (exists mel,
      snd (Fixture.getitem Fixture.ds 1) = Ok (mel, 1)
      /\ size_last mel = Ok 4)
  /\ (forall fs dir protocol rate self',
         __init__ fs dir protocol rate None = Ok self' ->
         target_length self' = 3000).
Proof.
  apply (getitem_time_axis_length 0 Fixture.audio_files Fixture.path_join
           Fixture.decode Fixture.Resample Fixture.feature_extractor
           Fixture.ds 1 1 _ _ fixture_front_end_long).
  - reflexivity.
  - simpl. lia.
Defined.

Lemma getitem_pads_right_or_truncates_witness :
  exists mel,
    snd (Fixture.getitem Fixture.ds 0) = Ok (mel, 0)
    /\ shape mel = [2%nat; 4%nat]
    /\ (2 < 4 ->
        matrix_rows mel
        = map (fun row => (row ++ repeat 0 2)%list) [[7; 8]; [-7; -8]])
    /\ (4 < 2 -> matrix_rows mel = map (firstn 4) [[7; 8]; [-7; -8]]).
Proof.
  apply (getitem_pads_right_or_truncates 0 Fixture.audio_files Fixture.path_join
           Fixture.decode Fixture.Resample Fixture.feature_extractor
           Fixture.ds 0 0 _ _ 2 2 fixture_front_end_short).
  - reflexivity.
  - reflexivity.
  - simpl. lia.
Defined.

Lemma getitem_exact_length_unchanged_witness :
  pad_or_truncate Z 0 (mkTensor [2%nat; 4%nat] [5; 6; 7; 8; -5; -6; -7; -8]) 4
  = Ok (mkTensor [2%nat; 4%nat] [5; 6; 7; 8; -5; -6; -7; -8])
  /\ snd (Fixture.getitem Fixture.ds 3)
     = Ok (mkTensor [2%nat; 4%nat] [5; 6; 7; 8; -5; -6; -7; -8], 0).
Proof.
  apply (getitem_exact_length_unchanged 0 Fixture.audio_files Fixture.path_join
           Fixture.decode Fixture.Resample Fixture.feature_extractor
           Fixture.ds 3 0 _ _ 2 4 fixture_front_end_exact).
  - reflexivity.
  - reflexivity.
  - reflexivity.
Defined.

Lemma getitem_resamples_iff_rates_differ_witness :
  let trace := fst (Fixture.getitem Fixture.ds 1) in
  ((exists orig new w0, In (EvResample orig new w0) trace) <-> 8000 <> 16000)
  /\ (8000 <> 16000 ->
      In (EvResample 8000 16000 (Fixture.mono [1; 2; 3])) trace
      /\ forall w',
           Fixture.Resample 8000 16000 (Fixture.mono [1; 2; 3]) = Ok w' ->
           trace = [EvLoad "flac/LA_T_0002.flac";
                    EvResample 8000 16000 (Fixture.mono [1; 2; 3]);
                    EvFeatureExtractor (squeeze0 w') 16000])
  /\ (8000 = 16000 ->
      trace = [EvLoad "flac/LA_T_0002.flac";
               EvFeatureExtractor (squeeze0 (Fixture.mono [1; 2; 3])) 16000]
      /\ data (squeeze0 (Fixture.mono [1; 2; 3])) = data (Fixture.mono [1; 2; 3])).
Proof.
  exact (getitem_resamples_iff_rates_differ 0 Fixture.audio_files
           Fixture.path_join Fixture.decode Fixture.Resample
           Fixture.feature_extractor Fixture.ds 1 "LA_T_0002" 1
           (Fixture.mono [1; 2; 3]) 8000 fixture_decodes_other_rate).
Defined.

Lemma getitem_missing_audio_file_witness :
  Fixture.getitem Fixture.ds 4
  = ([EvLoad "flac/LA_T_0005.flac"], Raise (AudioIOError "flac/LA_T_0005.flac"))
  /\ (forall out, snd (Fixture.getitem Fixture.ds 4) <> Ok out)
  /\ (forall w rate,
         ~ In (EvFeatureExtractor w rate) (fst (Fixture.getitem Fixture.ds 4))).
Proof.
  apply (getitem_missing_audio_file 0 Fixture.audio_files Fixture.path_join
           Fixture.decode Fixture.Resample Fixture.feature_extractor
           Fixture.ds 4 "LA_T_0005" 1).
  - vm_compute. reflexivity.
  - vm_compute. reflexivity.
Defined.

(** C4, as the claim states it, fails on a stereo file: the waveform has
    two channels, the front-end is called on it as it is, which is neither
    one-dimensional nor its first channel. *)
Lemma stereo_reaches_front_end_uncollapsed :
  shape Fixture.stereo = [2%nat; 3%nat]
  /\ Fixture.decodes Fixture.ds 2 "LA_T_0003" 1 Fixture.stereo 16000
  /\ fst (Fixture.getitem Fixture.ds 2)
     = [EvLoad "flac/LA_T_0003.flac"; EvFeatureExtractor Fixture.stereo 16000]
  /\ select0 Fixture.stereo = Ok (mkTensor [3%nat] [1; 2; 3])
  /\ ~ (forall passed rate,
           In (EvFeatureExtractor passed rate) (fst (Fixture.getitem Fixture.ds 2)) ->
           ndim passed = 1%nat /\ select0 Fixture.stereo = Ok passed).
Proof.
  split; [reflexivity |]. split; [exact fixture_decodes_stereo |].
  split; [vm_compute; reflexivity |]. split; [reflexivity |].
  intros Hclaim.
  destruct (Hclaim Fixture.stereo 16000) as [Hdim _].
  - vm_compute. right. left. reflexivity.
  - vm_compute in Hdim. discriminate.
Qed.

Lemma getitem_squeezes_channel_dimension_witness :
  (forall passed rate,
      In (EvFeatureExtractor passed rate) (fst (Fixture.getitem Fixture.ds 2))
      <-> passed = squeeze0 Fixture.stereo /\ rate = 16000)
  /\ (forall n,
         shape Fixture.stereo = [1%nat; n] -> well_formed Fixture.stereo ->
         ndim (squeeze0 Fixture.stereo) = 1%nat
         /\ select0 Fixture.stereo = Ok (squeeze0 Fixture.stereo))
  /\ (forall c n,
         shape Fixture.stereo = [c; n] -> c <> 1%nat ->
         squeeze0 Fixture.stereo = Fixture.stereo
         /\ ndim (squeeze0 Fixture.stereo) = 2%nat).
Proof.
  apply (getitem_squeezes_channel_dimension 0 Fixture.audio_files
           Fixture.path_join Fixture.decode Fixture.Resample
           Fixture.feature_extractor Fixture.ds 2 "LA_T_0003" 1
           Fixture.stereo Fixture.stereo 16000 fixture_decodes_stereo).
  reflexivity.
Defined.

(** * Further properties of the metadata loader *)

Section FieldFacts.

Implicit Types (s w pre post line : string) (c : ascii).

Lemma append_nil_r s : s ++ "" = s.
Proof. induction s as [| c s IH]; cbn; [reflexivity | now rewrite IH]. Qed.

Lemma append_assoc s1 s2 s3 : (s1 ++ s2) ++ s3 = s1 ++ (s2 ++ s3).
Proof. induction s1 as [| c s1 IH]; cbn; [reflexivity | now rewrite IH]. Qed.

Lemma all_whitespace_app s1 s2 :
  all_whitespace (s1 ++ s2) = all_whitespace s1 && all_whitespace s2.
Proof.
  induction s1 as [| c s1 IH]; cbn; [reflexivity |].
  now rewrite IH, andb_assoc.
Qed.

Lemma has_whitespace_app s1 s2 :
  has_whitespace (s1 ++ s2) = has_whitespace s1 || has_whitespace s2.
Proof.
  induction s1 as [| c s1 IH]; cbn; [reflexivity |].
  now rewrite IH, orb_assoc.
Qed.

(** A run of whitespace closes the field being read and opens none. *)
Lemma split_scan_whitespace post :
  all_whitespace post = true ->
  forall w, Py.split_scan w post = match w with "" => [] | _ => [w] end.
Proof.
  induction post as [| c post IH]; intros Hws w; [reflexivity |].
  cbn in Hws. apply andb_prop in Hws as [Hc Hpost].
  cbn. rewrite Hc, (IH Hpost ""). now destruct w.
Qed.

Lemma split_scan_trailing s post :
  all_whitespace post = true ->
  forall w, Py.split_scan w (s ++ post) = Py.split_scan w s.
Proof.
  intros Hws. induction s as [| c s IH]; intros w.
  - cbn. now apply split_scan_whitespace.
  - cbn. destruct (Py.isspace c); [destruct w |]; now rewrite IH.
Qed.

Lemma split_leading pre s :
  all_whitespace pre = true -> Py.split (pre ++ s) = Py.split s.
Proof.
  unfold Py.split. induction pre as [| c pre IH]; intros Hws; [reflexivity |].
  cbn in Hws. apply andb_prop in Hws as [Hc Hpre].
  cbn. rewrite Hc. now apply IH.
Qed.

Lemma lstrip_decompose s :
  exists pre, all_whitespace pre = true /\ s = pre ++ Py.lstrip s.
Proof.
  induction s as [| c s (pre & Hpre & Hs)]; [now exists "" |].
  cbn. destruct (Py.isspace c) eqn:Hc.
  - exists (String c pre). cbn. rewrite Hc, Hpre. split; [reflexivity |].
    now rewrite <- Hs.
  - now exists "".
Qed.

Lemma rstrip_decompose s :
  exists post, all_whitespace post = true /\ s = Py.rstrip s ++ post.
Proof.
  induction s as [| c s (post & Hpost & Hs)]; [now exists "" |].
  cbn. destruct (Py.rstrip s) as [| k kept] eqn:Hr.
  - cbn in Hs. subst post. destruct (Py.isspace c) eqn:Hc.
    + exists (String c s). cbn. now rewrite Hc, Hpost.
    + now exists s.
  - exists post. split; [exact Hpost |]. cbn. cbn in Hs. now rewrite <- Hs.
Qed.

(** [line.strip().split()] is [line.split()]. *)
Lemma fields_is_split line : fields line = Py.split line.
Proof.
  unfold fields, Py.strip.
  destruct (lstrip_decompose line) as (pre & Hpre & Hline).
  destruct (rstrip_decompose (Py.lstrip line)) as (post & Hpost & Hl).
  rewrite Hline at 2. rewrite (split_leading pre _ Hpre).
  rewrite Hl at 2. unfold Py.split. now rewrite split_scan_trailing.
Qed.

Lemma fields_of_whitespace line : all_whitespace line = true -> fields line = [].
Proof.
  intros Hws. rewrite fields_is_split. unfold Py.split.
  now rewrite split_scan_whitespace.
Qed.

(** What [split] gives out are fields: not empty, no whitespace inside. *)
Lemma split_scan_fields s :
  forall w, has_whitespace w = false ->
            Forall (fun f => f <> "" /\ has_whitespace f = false)
              (Py.split_scan w s).
Proof.
  induction s as [| c s IH]; intros w Hw; cbn.
  - destruct w; [constructor |]. constructor; [| constructor].
    split; [discriminate | exact Hw].
  - destruct (Py.isspace c) eqn:Hc.
    + destruct w as [| k w]; [now apply IH |].
      constructor; [split; [discriminate | exact Hw] | now apply IH].
    + apply IH. rewrite has_whitespace_app, Hw. cbn. now rewrite Hc.
Qed.

Lemma fields_are_fields line :
  Forall (fun f => f <> "" /\ has_whitespace f = false) (fields line).
Proof. unfold fields, Py.split. now apply split_scan_fields. Qed.

End FieldFacts.

(** X1. Whitespace around a line, its line terminator included, does not
    reach the entry: the line parses as it does without it. *)
Theorem parse_line_ignores_surrounding_whitespace (pre line post : string)
    (Hpre : all_whitespace pre = true) (Hpost : all_whitespace post = true) :
  fields (pre ++ line ++ post) = fields line
  /\ parse_line (pre ++ line ++ post) = parse_line line.
Proof.
  assert (Hfields : fields (pre ++ line ++ post) = fields line).
  { rewrite !fields_is_split, (split_leading pre _ Hpre). unfold Py.split.
    now apply split_scan_trailing. }
  split; [exact Hfields |]. unfold parse_line. now rewrite Hfields.
Qed.

Lemma parse_line_ignores_surrounding_whitespace_witness :
  fields ("  " ++ "LA_0001 LA_T_0001 - - bonafide" ++ Fixture.nl)
  = fields "LA_0001 LA_T_0001 - - bonafide"
  /\ parse_line ("  " ++ "LA_0001 LA_T_0001 - - bonafide" ++ Fixture.nl)
     = parse_line "LA_0001 LA_T_0001 - - bonafide".
Proof.
  apply (parse_line_ignores_surrounding_whitespace
           "  " "LA_0001 LA_T_0001 - - bonafide" Fixture.nl).
  - vm_compute. reflexivity.
  - vm_compute. reflexivity.
Defined.

(** X2. Every entry the loader returns has a filename that is not empty
    and holds no whitespace, and a label that is 0 or 1. *)
Theorem load_metadata_entries_clean (fs : filesystem) (path : string)
    (data : list entry) (Hrun : load_metadata fs path = Ok data) :
  Forall (fun e : entry =>
            fst e <> "" /\ has_whitespace (fst e) = false
            /\ (snd e = 0 \/ snd e = 1)) data.
Proof.
  unfold load_metadata in Hrun.
  destruct (open_readlines fs path) as [lines | e]; cbn in Hrun; [| discriminate].
  destruct (load_metadata_loop_ok _ _ _ Hrun) as (es & -> & Hall). cbn [app].
  clear Hrun. induction Hall as [| line e lines es Hline _ IH]; constructor; trivial.
  destruct e as [filename label]. cbn [fst snd].
  apply parse_line_ok_iff in Hline as (H1 & f4 & _ & ->).
  apply nth_error_In in H1.
  pose proof (proj1 (Forall_forall _ _) (fields_are_fields line) _ H1) as [Hne Hws].
  repeat split; trivial. unfold label_of. destruct (String.eqb f4 "bonafide"); auto.
Qed.

Lemma load_metadata_entries_clean_witness :
  Forall (fun e : entry =>
            fst e <> "" /\ has_whitespace (fst e) = false
            /\ (snd e = 0 \/ snd e = 1))
    [("LA_T_0001", 0); ("LA_T_0002", 1)].
Proof.
  apply (load_metadata_entries_clean Fixture.protocol_fs "train.trn.txt").
  vm_compute. reflexivity.
Defined.

Section LineFacts.

Implicit Types (s a b ws line rest : string) (c : ascii).

(** A "\n" of the file is still there after newline translation, and
    whitespace before it still is whitespace. *)
Lemma translate_newlines_at_LF (n : nat) :
  forall a, (String.length a <= n)%nat ->
  forall rest,
  exists a',
    Py.translate_newlines (a ++ String Py.LF rest)
    = a' ++ String Py.LF (Py.translate_newlines rest)
    /\ (all_whitespace a = true -> all_whitespace a' = true).
Proof.
  induction n as [| n IH]; intros a Hlen rest.
  - destruct a; [| cbn in Hlen; lia]. now exists "".
  - destruct a as [| c a]; [now exists "" |].
    cbn in Hlen. cbn [append Py.translate_newlines].
    destruct (Ascii.eqb c Py.CR) eqn:Hc.
    + destruct a as [| c' a]; cbn [append].
      * exists "". now rewrite Ascii.eqb_refl.
      * cbn in Hlen. destruct (Ascii.eqb c' Py.LF) eqn:Hc'.
        -- destruct (IH a ltac:(lia) rest) as (a' & -> & Hws).
           exists (String Py.LF a'). split; [reflexivity |].
           cbn. intros H. apply andb_prop in H as [_ H].
           apply andb_prop in H as [_ H]. now apply Hws.
        -- destruct (IH (String c' a) ltac:(cbn; lia) rest) as (a' & Heq & Hws).
           cbn [append] in Heq. rewrite Heq.
           exists (String Py.LF a'). split; [reflexivity |].
           cbn -[Py.isspace]. intros H. apply andb_prop in H as [_ H].
           now apply Hws.
    + destruct (IH a ltac:(lia) rest) as (a' & -> & Hws).
      exists (String c a'). split; [reflexivity |].
      cbn -[Py.isspace]. intros H. apply andb_prop in H as [-> H].
      now apply Hws.
Qed.

(** The lines after a "\n" are lines of the whole text. *)
Lemma readlines_scan_after_LF a :
  forall line rest,
    incl (Py.readlines_scan "" rest)
      (Py.readlines_scan line (a ++ String Py.LF rest)).
Proof.
  induction a as [| c a IH]; intros line rest; cbn.
  - apply incl_tl, incl_refl.
  - destruct (Ascii.eqb c Py.LF); [apply incl_tl |]; apply IH.
Qed.

(** Whitespace up to a "\n" gives a line of whitespace. *)
Lemma readlines_scan_blank ws :
  all_whitespace ws = true ->
  forall line rest,
    all_whitespace line = true ->
    exists blank,
      In blank (Py.readlines_scan line (ws ++ String Py.LF rest))
      /\ all_whitespace blank = true.
Proof.
  induction ws as [| c ws IH]; intros Hws line rest Hline; cbn.
  - exists (line ++ String Py.LF ""). split; [now left |].
    now rewrite all_whitespace_app, Hline.
  - cbn in Hws. apply andb_prop in Hws as [Hc Hws].
    destruct (Ascii.eqb c Py.LF).
    + exists (line ++ String Py.LF ""). split; [now left |].
      now rewrite all_whitespace_app, Hline.
    + apply IH; trivial. rewrite all_whitespace_app, Hline. cbn. now rewrite Hc.
Qed.

Lemma readlines_blank_first ws rest :
  all_whitespace ws = true ->
  exists blank,
    In blank (Py.readlines (ws ++ String Py.LF rest))
    /\ all_whitespace blank = true.
Proof.
  intros Hws. unfold Py.readlines.
  destruct (translate_newlines_at_LF (String.length ws) ws (le_n _) rest)
    as (ws' & -> & Hws').
  apply readlines_scan_blank; [now apply Hws' | reflexivity].
Qed.

Lemma readlines_blank_inside a ws rest :
  all_whitespace ws = true ->
  exists blank,
    In blank (Py.readlines (a ++ String Py.LF (ws ++ String Py.LF rest)))
    /\ all_whitespace blank = true.
Proof.
  intros Hws. unfold Py.readlines.
  destruct (translate_newlines_at_LF (String.length a) a (le_n _)
              (ws ++ String Py.LF rest)) as (a' & -> & _).
  destruct (translate_newlines_at_LF (String.length ws) ws (le_n _) rest)
    as (ws' & -> & Hws').
  destruct (readlines_scan_blank ws' (Hws' Hws) "" (Py.translate_newlines rest)
              eq_refl) as (blank & Hin & Hblank).
  exists blank. split; [| exact Hblank].
  now apply (readlines_scan_after_LF a' "").
Qed.

End LineFacts.

(** X3. A blank line is fatal: when the protocol file starts with a line
    of nothing but whitespace, or has one between two "\n" (an empty line
    in the middle, a second "\n" at the end), the loader raises
    [IndexError]. *)
Theorem load_metadata_blank_line (fs : filesystem) (path contents : string)
    (a ws rest : string)
    (Hfile : fs path = Some contents)
    (Hws : all_whitespace ws = true)
    (Hblank : contents = ws ++ String Py.LF rest
              \/ contents = a ++ String Py.LF (ws ++ String Py.LF rest)) :
  load_metadata fs path = Raise IndexError.
Proof.
  assert (Hline : exists blank,
             In blank (Py.readlines contents) /\ all_whitespace blank = true).
  { destruct Hblank as [-> | ->].
    - now apply readlines_blank_first.
    - now apply readlines_blank_inside. }
  destruct Hline as (blank & Hin & Hall).
  unfold load_metadata, open_readlines. rewrite Hfile. cbn [rbind].
  apply load_metadata_loop_raises with (bad := blank); [exact Hin |].
  rewrite (fields_of_whitespace blank Hall). cbn. lia.
Qed.

Lemma load_metadata_blank_line_witness :
  load_metadata
    (fun _ => Some ("LA_0001 LA_T_0001 - - bonafide" ++ Fixture.nl ++ Fixture.nl))
    "train.trn.txt"
  = Raise IndexError.
Proof.
  apply (load_metadata_blank_line _ "train.trn.txt"
           ("LA_0001 LA_T_0001 - - bonafide" ++ Fixture.nl ++ Fixture.nl)
           "LA_0001 LA_T_0001 - - bonafide" "" "").
  - reflexivity.
  - reflexivity.
  - right. vm_compute. reflexivity.
Defined.

(** X4. A dataset that [__init__] builds has as many items as the
    protocol file has lines, keeps the audio directory it was given, and
    takes the rates given or else 16000 and 3000; [__init__] raises what
    the loader raises. *)
Theorem init_len_is_line_count (fs : filesystem) (dir protocol contents : string)
    (rate target : option Z)
    (Hfile : fs protocol = Some contents) :
  (forall self,
      __init__ fs dir protocol rate target = Ok self ->
      __len__ self = Z.of_nat (List.length (Py.readlines contents))
      /\ load_metadata fs protocol = Ok (metadata self)
      /\ audio_dir self = dir
      /\ sampling_rate self = match rate with Some r => r | None => 16000 end
      /\ target_length self = match target with Some n => n | None => 3000 end)
  /\ (forall e,
         __init__ fs dir protocol rate target = Raise e
         <-> load_metadata fs protocol = Raise e).
Proof.
  unfold __init__.
  destruct (load_metadata fs protocol) as [data | err] eqn:Hload; cbn [rbind].
  - split.
    + intros self Hself. injection Hself as <-. cbn.
      assert (Hlen : List.length data = List.length (Py.readlines contents)).
      { unfold load_metadata, open_readlines in Hload. rewrite Hfile in Hload.
        cbn [rbind] in Hload.
        destruct (load_metadata_loop_ok _ _ _ Hload) as (es & -> & Hall).
        symmetry. exact (Forall2_length Hall). }
      unfold __len__. cbn. rewrite Hlen. repeat split; reflexivity.
    + intros e. split; discriminate.
  - split; [discriminate |]. intros e.
    split; intros H; injection H as ->; reflexivity.
Qed.

Lemma init_len_is_line_count_witness :
  (forall self,
      __init__ Fixture.protocol_fs "flac" "train.trn.txt" None (Some 5) = Ok self ->
      __len__ self = Z.of_nat (List.length (Py.readlines Fixture.train_protocol))
      /\ load_metadata Fixture.protocol_fs "train.trn.txt" = Ok (metadata self)
      /\ audio_dir self = "flac"
      /\ sampling_rate self = 16000
      /\ target_length self = 5)
  /\ (forall e,
         __init__ Fixture.protocol_fs "flac" "train.trn.txt" None (Some 5) = Raise e
         <-> load_metadata Fixture.protocol_fs "train.trn.txt" = Raise e).
Proof.
  apply (init_len_is_line_count Fixture.protocol_fs "flac" "train.trn.txt"
           Fixture.train_protocol None (Some 5)).
  reflexivity.
Defined.

(** * Further properties of the tensor operations *)

Section ShapeFacts.

Context {A : Type}.
Implicit Types (d row : list A) (rows : list (list A)) (t : tensor A)
  (s : list nat).

Lemma numel_app s1 s2 : numel (s1 ++ s2) = (numel s1 * numel s2)%nat.
Proof.
  induction s1 as [| k s1 IH]; cbn [app numel fold_right].
  - fold (numel s2). lia.
  - fold (numel (s1 ++ s2)) (numel s1). rewrite IH. lia.
Qed.

Lemma numel_rev s : numel (rev s) = numel s.
Proof.
  induction s as [| k s IH]; [reflexivity |].
  cbn [rev]. rewrite numel_app, IH. cbn [numel fold_right]. fold (numel s). lia.
Qed.

Lemma length_concat_uniform (m : nat) rows :
  Forall (fun row => List.length row = m) rows ->
  List.length (List.concat rows) = (List.length rows * m)%nat.
Proof.
  induction 1 as [| row rows Hrow _ IH]; [reflexivity |].
  cbn [List.concat List.length]. rewrite length_app, IH, Hrow. lia.
Qed.

Lemma slice_stop_le (n : nat) (stop : Z) : (slice_stop n stop <= n)%nat.
Proof. unfold slice_stop. destruct (Z.ltb_spec stop 0); lia. Qed.

Lemma pad_row_length (left right : Z) (value : A) row :
  0 <= Z.of_nat (List.length row) + left ->
  0 <= Z.of_nat (List.length row) + left + right ->
  List.length (pad_row left right value row)
  = Z.to_nat (Z.of_nat (List.length row) + left + right).
Proof.
  intros Hl Hr. unfold pad_row.
  destruct (Z.ltb_spec left 0), (Z.ltb_spec right 0);
    rewrite ?length_app, ?length_firstn, ?length_skipn, ?repeat_length,
      ?length_app, ?length_skipn, ?repeat_length; lia.
Qed.

Lemma squeeze0_well_formed t : well_formed t -> well_formed (squeeze0 t).
Proof.
  unfold well_formed, squeeze0. intros Hwf.
  destruct (shape t) as [| [| [| k]] s] eqn:Hs; cbn [shape data];
    rewrite ?Hs; trivial.
  rewrite Hwf. unfold numel. cbn [fold_right]. lia.
Qed.

Lemma F_pad_well_formed t t' (left right : Z) (value : A) :
  well_formed t -> F_pad t left right value = Ok t' -> well_formed t'.
Proof.
  unfold well_formed, F_pad. intros Hwf Hpad.
  assert (Hnumel : numel (shape t) = numel (rev (shape t)))
    by (now rewrite numel_rev).
  destruct (rev (shape t)) as [| n outer]; [discriminate |].
  cbn [numel fold_right] in Hnumel. fold (numel outer) in Hnumel.
  destruct (Z.ltb_spec (Z.of_nat n + left + right) 0); [discriminate |].
  destruct (Z.ltb_spec (Z.of_nat n + left) 0); [discriminate |].
  destruct (Z.ltb_spec (Z.of_nat n + right) 0); [discriminate |].
  cbn [orb] in Hpad. injection Hpad as <-. cbn [shape data].
  assert (Hfull : Forall (fun row => List.length row = n)
                    (blocks (numel outer) n (data t)))
    by (apply blocks_all_full; lia).
  rewrite (length_concat_uniform (Z.to_nat (Z.of_nat n + left + right))).
  - rewrite length_map, blocks_length, numel_app, numel_rev.
    cbn [numel fold_right]. lia.
  - apply Forall_map. eapply Forall_impl; [| exact Hfull].
    cbn beta. intros row <-. apply pad_row_length; lia.
Qed.

Lemma slice_dim1_well_formed t t' (stop : Z) :
  well_formed t -> slice_dim1 t stop = Ok t' -> well_formed t'.
Proof.
  unfold well_formed, slice_dim1. intros Hwf Hslice.
  destruct (shape t) as [| d0 [| d1 inner]]; try discriminate.
  injection Hslice as <-. cbn [shape data numel fold_right] in *.
  fold (numel inner) in *.
  pose proof (slice_stop_le d1 stop) as Hk.
  assert (Hfull : Forall (fun row => List.length row = (d1 * numel inner)%nat)
                    (blocks d0 (d1 * numel inner) (data t)))
    by (apply blocks_all_full; lia).
  rewrite (length_concat_uniform (slice_stop d1 stop * numel inner)).
  - now rewrite length_map, blocks_length.
  - apply Forall_map. eapply Forall_impl; [| exact Hfull].
    cbn beta. intros row Hrow. rewrite length_firstn, Hrow. nia.
Qed.

End ShapeFacts.

(** * Further properties of the per-item pipeline *)

Section IndexFacts.

Context {A : Type}.
Implicit Types (l : list A) (i : Z).

Lemma py_getitem_out_of_range l i :
  i < - Z.of_nat (List.length l) \/ Z.of_nat (List.length l) <= i ->
  Py.getitem l i = Raise IndexError.
Proof.
  intros Hout. unfold Py.getitem.
  set (j := if i <? 0 then i + Z.of_nat (List.length l) else i).
  assert (Hj : j < 0 \/ Z.of_nat (List.length l) <= j)
    by (subst j; destruct (Z.ltb_spec i 0); lia).
  destruct (Z.ltb_spec j 0); [reflexivity |].
  destruct (Z.leb_spec (Z.of_nat (List.length l)) j); [reflexivity | lia].
Qed.

Lemma py_getitem_negative l i :
  - Z.of_nat (List.length l) <= i < 0 ->
  Py.getitem l i = Py.getitem l (i + Z.of_nat (List.length l)).
Proof.
  intros Hneg. unfold Py.getitem. cbv zeta.
  rewrite (proj2 (Z.ltb_lt i 0)) by lia.
  now rewrite !(proj2 (Z.ltb_ge (i + Z.of_nat (List.length l)) 0)) by lia.
Qed.

Lemma py_getitem_in_range l i :
  - Z.of_nat (List.length l) <= i < Z.of_nat (List.length l) ->
  exists a, Py.getitem l i = Ok a.
Proof.
  intros Hin. unfold Py.getitem.
  set (j := if i <? 0 then i + Z.of_nat (List.length l) else i).
  assert (Hj : 0 <= j < Z.of_nat (List.length l))
    by (subst j; destruct (Z.ltb_spec i 0); lia).
  destruct (Z.ltb_spec j 0); [lia |].
  destruct (Z.leb_spec (Z.of_nat (List.length l)) j); [lia |]. cbn [orb].
  destruct (nth_error l (Z.to_nat j)) as [a |] eqn:Hnth; [now exists a |].
  apply nth_error_None in Hnth. lia.
Qed.

Lemma py_getitem_raises l i e : Py.getitem l i = Raise e -> e = IndexError.
Proof.
  unfold Py.getitem.
  destruct (_ || _); [now intros [= <-] |].
  destruct (nth_error l _); [discriminate | now intros [= <-]].
Qed.

End IndexFacts.

Section PipelineMore.

Context {sample : Type} (zero : sample).
Context {audio_bytes : Type} (audio_files : string -> option audio_bytes).
Context (path_join : string -> string -> string).
Context (decode : audio_bytes -> option (tensor sample * Z)).
Context (Resample : Z -> Z -> tensor sample -> result (tensor sample)).
Context (feature_extractor : tensor sample -> Z -> result (tensor sample)).

Local Abbreviation getitem :=
  (__getitem__ sample zero audio_bytes audio_files path_join decode
     Resample feature_extractor).
Local Abbreviation decodes :=
  (decodes_to sample audio_bytes audio_files path_join decode).
Local Abbreviation front_end :=
  (front_end_output sample audio_bytes audio_files path_join decode
     Resample feature_extractor).
Local Abbreviation resample_step := (resample_if_needed sample Resample).
Local Abbreviation pad_trunc := (pad_or_truncate sample zero).
Local Abbreviation item_path self filename :=
  (path_join (audio_dir self) (filename ++ ".flac")).

Implicit Types (self : dataset) (t mel w : tensor sample).

(** The stages of [__getitem__], one after the other. *)
Lemma getitem_stages self (idx : Z) :
  getitem self idx
  = match Py.getitem (metadata self) idx with
    | Raise e => ([], Raise e)
    | Ok (filename, label) =>
        match audio_files (item_path self filename) with
        | None =>
            ([EvLoad (item_path self filename)],
             Raise (AudioIOError (item_path self filename)))
        | Some bytes =>
            match decode bytes with
            | None =>
                ([EvLoad (item_path self filename)],
                 Raise (AudioDecodeError (item_path self filename)))
            | Some (w, sample_rate) =>
                match resample_step self w sample_rate with
                | (tr, Raise e) => (EvLoad (item_path self filename) :: tr, Raise e)
                | (tr, Ok w') =>
                    (EvLoad (item_path self filename)
                       :: (tr ++ [EvFeatureExtractor (squeeze0 w')
                                    (sampling_rate self)])%list,
                     (features <- feature_extractor (squeeze0 w')
                                    (sampling_rate self) ;;
                      mel <- pad_trunc (squeeze0 features) (target_length self) ;;
                      Ok (mel, label))%result)
                end
            end
        end
    end.
Proof.
  destruct (Py.getitem (metadata self) idx) as [[filename label] | e] eqn:Hidx.
  - destruct (audio_files (item_path self filename)) as [bytes |] eqn:Hfile.
    + destruct (decode bytes) as [[w sample_rate] |] eqn:Hdec.
      * apply (getitem_decoded zero audio_files path_join decode Resample
                 feature_extractor self idx filename label w sample_rate).
        split; [exact Hidx |]. now exists bytes.
      * unfold __getitem__, lift, torchaudio_load, call.
        rewrite Hidx. cbn [mbind app]. now rewrite Hfile, Hdec.
    + unfold __getitem__, lift, torchaudio_load, call.
      rewrite Hidx. cbn [mbind app]. now rewrite Hfile.
  - unfold __getitem__, lift. now rewrite Hidx.
Qed.

Lemma resample_step_trace self w (sample_rate : Z) :
  (fst (resample_step self w sample_rate) = []
   /\ snd (resample_step self w sample_rate) = Ok w
   /\ sample_rate = sampling_rate self)
  \/ (fst (resample_step self w sample_rate)
      = [EvResample sample_rate (sampling_rate self) w]
      /\ snd (resample_step self w sample_rate)
         = Resample sample_rate (sampling_rate self) w
      /\ sample_rate <> sampling_rate self).
Proof.
  unfold resample_if_needed.
  destruct (Z.eqb_spec sample_rate (sampling_rate self)); cbn; auto.
Qed.

(** X5. An index outside [-len, len) raises [IndexError] before anything
    is read: no file is loaded and no library is called. *)
Theorem getitem_index_out_of_range self (idx : Z)
    (Hout : idx < - __len__ self \/ __len__ self <= idx) :
  getitem self idx = ([], Raise IndexError).
Proof.
  rewrite getitem_stages.
  now rewrite (py_getitem_out_of_range (metadata self) idx Hout).
Qed.

(** X6. A negative index counts from the end: for [-len <= idx < 0] the
    run of item [idx] is the run of item [idx + len], calls and result. *)
Theorem getitem_negative_index self (idx : Z)
    (Hneg : - __len__ self <= idx < 0) :
  getitem self idx = getitem self (idx + __len__ self).
Proof.
  rewrite !getitem_stages. unfold __len__.
  now rewrite (py_getitem_negative (metadata self) idx Hneg).
Qed.

(** X7. When the file of an entry is on disk and does not decode,
    accessing the item raises the decode error of the load, naming the
    path, right after the load: no resampling, no front-end call. *)
Theorem getitem_undecodable_audio self (idx : Z) (filename : string)
    (label : Z) (bytes : audio_bytes)
    (Hidx : Py.getitem (metadata self) idx = Ok (filename, label))
    (Hfile : audio_files (item_path self filename) = Some bytes)
    (Hdec : decode bytes = None) :
  getitem self idx
  = ([EvLoad (item_path self filename)],
     Raise (AudioDecodeError (item_path self filename))).
Proof. rewrite getitem_stages. now rewrite Hidx, Hfile, Hdec. Qed.

(** X8. What the resampler or the front-end raises is what accessing the
    item raises, and the run ends at that call: after a failed resampling
    the front-end is not called. *)
Theorem getitem_library_error_propagates self (idx : Z) (filename : string)
    (label : Z) w (sample_rate : Z) (e : exn)
    (Hdec : decodes self idx filename label w sample_rate) :
  (sample_rate <> sampling_rate self ->
   Resample sample_rate (sampling_rate self) w = Raise e ->
   getitem self idx
   = ([EvLoad (item_path self filename);
       EvResample sample_rate (sampling_rate self) w], Raise e))
  /\ (forall w',
         snd (resample_step self w sample_rate) = Ok w' ->
         feature_extractor (squeeze0 w') (sampling_rate self) = Raise e ->
         snd (getitem self idx) = Raise e
         /\ exists before,
              fst (getitem self idx)
              = (before ++ [EvFeatureExtractor (squeeze0 w')
                              (sampling_rate self)])%list).
Proof.
  rewrite (getitem_decoded zero audio_files path_join decode Resample
             feature_extractor self idx filename label w sample_rate Hdec).
  cbv zeta. split.
  - intros Hne Hres.
    rewrite (resample_step_differs Resample self w sample_rate Hne).
    now rewrite Hres.
  - intros w' Hres Hfe.
    destruct (resample_step self w sample_rate) as [tr r]. cbn [snd] in Hres.
    subst r. cbn [fst snd]. rewrite Hfe. split; [reflexivity |].
    now exists (EvLoad (item_path self filename) :: tr).
Qed.

(** X9. [__getitem__] returns only what the whole pipeline made: when it
    returns [(mel, label)], the entry at [idx] has that label, its file
    was decoded, the front-end was called and answered, and [mel] is the
    answer after [squeeze(0)] and padding or truncation. *)
Theorem getitem_returns_pipeline_output self (idx : Z) mel (label : Z)
    (Hret : snd (getitem self idx) = Ok (mel, label)) :
  exists passed features,
    front_end self idx label passed features
    /\ pad_trunc (squeeze0 features) (target_length self) = Ok mel
    /\ In (EvFeatureExtractor passed (sampling_rate self))
         (fst (getitem self idx)).
Proof.
  rewrite getitem_stages in Hret |- *.
  destruct (Py.getitem (metadata self) idx) as [[filename label0] | e] eqn:Hidx;
    [| discriminate].
  destruct (audio_files (item_path self filename)) as [bytes |] eqn:Hfile;
    [| discriminate].
  destruct (decode bytes) as [[w sample_rate] |] eqn:Hdec; [| discriminate].
  destruct (resample_step self w sample_rate) as [tr [w' | e]] eqn:Hres;
    [| discriminate].
  cbn [fst snd] in *.
  destruct (feature_extractor (squeeze0 w') (sampling_rate self))
    as [features | e] eqn:Hfe; [| discriminate].
  cbn [rbind] in Hret.
  destruct (pad_trunc (squeeze0 features) (target_length self)) as [mel0 | e]
    eqn:Hpad; [| discriminate].
  cbn [rbind] in Hret. injection Hret as <- <-.
  exists (squeeze0 w'), features. split; [| split].
  - exists filename, w, sample_rate, w'. split; [| split; [| split]]; trivial.
    + split; [exact Hidx |]. now exists bytes.
    + now rewrite Hres.
  - exact Hpad.
  - right. apply in_or_app. right. now left.
Qed.

(** X10. Every run has the same order of calls: nothing at all for an
    index out of range; otherwise one load, of the file of the entry, then
    at most one resampling (to the rate of the dataset, and only from
    another rate), then at most one front-end call (at the rate of the
    dataset). *)
Theorem getitem_trace_shape self (idx : Z) :
  (getitem self idx = ([], Raise IndexError)
   /\ (idx < - __len__ self \/ __len__ self <= idx))
  \/ exists filename label resamples front_ends,
       Py.getitem (metadata self) idx = Ok (filename, label)
       /\ fst (getitem self idx)
          = EvLoad (item_path self filename) :: (resamples ++ front_ends)%list
       /\ (resamples = []
           \/ exists w sample_rate,
                resamples = [EvResample sample_rate (sampling_rate self) w]
                /\ sample_rate <> sampling_rate self)
       /\ (front_ends = []
           \/ exists w, front_ends = [EvFeatureExtractor w (sampling_rate self)]).
Proof.
  rewrite !getitem_stages.
  destruct (Py.getitem (metadata self) idx) as [[filename label] | e] eqn:Hidx.
  - right. exists filename, label.
    destruct (audio_files (item_path self filename)) as [bytes |];
      [| exists [], []; cbn; auto].
    destruct (decode bytes) as [[w sample_rate] |]; [| exists [], []; cbn; auto].
    destruct (resample_step_trace self w sample_rate)
      as [(Htr & Hr & Heq) | (Htr & Hr & Hne)];
      destruct (resample_step self w sample_rate) as [tr r];
      cbn [fst snd] in Htr, Hr; subst tr.
    + subst r. exists [], [EvFeatureExtractor (squeeze0 w) (sampling_rate self)].
      cbn. repeat split; eauto.
    + exists [EvResample sample_rate (sampling_rate self) w].
      destruct r as [w' | e].
      * exists [EvFeatureExtractor (squeeze0 w') (sampling_rate self)].
        cbn. repeat split; eauto.
      * exists []. cbn. repeat split; eauto.
  - left. rewrite (py_getitem_raises _ _ _ Hidx). split; [reflexivity |].
    destruct (Z_lt_ge_dec idx (- __len__ self)) as [Hlt | Hge]; [now left |].
    destruct (Z_lt_ge_dec idx (__len__ self)) as [Hlt | Hge']; [| right; lia].
    destruct (py_getitem_in_range (metadata self) idx) as [a Ha];
      [unfold __len__ in *; lia | congruence].
Qed.

End PipelineMore.

Section PadMore.

Context {sample : Type} (zero : sample).
Context {audio_bytes : Type} (audio_files : string -> option audio_bytes).
Context (path_join : string -> string -> string).
Context (decode : audio_bytes -> option (tensor sample * Z)).
Context (Resample : Z -> Z -> tensor sample -> result (tensor sample)).
Context (feature_extractor : tensor sample -> Z -> result (tensor sample)).

Local Abbreviation getitem :=
  (__getitem__ sample zero audio_bytes audio_files path_join decode
     Resample feature_extractor).
Local Abbreviation front_end :=
  (front_end_output sample audio_bytes audio_files path_join decode
     Resample feature_extractor).
Local Abbreviation pad_trunc := (pad_or_truncate sample zero).

Implicit Types (self : dataset) (t mel : tensor sample).

Lemma pad_or_truncate_well_formed t mel (target : Z) :
  well_formed t -> pad_trunc t target = Ok mel -> well_formed mel.
Proof.
  unfold pad_or_truncate. intros Hwf Hrun.
  destruct (size_last t) as [n |]; cbn [rbind] in Hrun; [| discriminate].
  destruct (n <? target).
  - now apply (F_pad_well_formed t mel 0 (target - n) zero).
  - now apply (slice_dim1_well_formed t mel target).
Qed.

(** X11. The tensor that [__getitem__] returns holds as many values as
    its shape says, whenever the front-end's answer does, for any number
    of dimensions and any target length. *)
Theorem getitem_keeps_well_formed self (idx label : Z)
    (passed features mel : tensor sample)
    (Hrun : front_end self idx label passed features)
    (Hwf : well_formed features)
    (Hret : snd (getitem self idx) = Ok (mel, label)) :
  well_formed mel.
Proof.
  rewrite (getitem_front_end zero audio_files path_join decode Resample
             feature_extractor self idx label passed features Hrun) in Hret.
  destruct (pad_trunc (squeeze0 features) (target_length self)) as [mel0 | e]
    eqn:Hpad; cbn [rbind] in Hret; [| discriminate].
  injection Hret as <-.
  apply (pad_or_truncate_well_formed (squeeze0 features) mel0
           (target_length self)); [| exact Hpad].
  now apply squeeze0_well_formed.
Qed.

(** X12. Padding or truncating twice is padding or truncating once: on a
    matrix, for a target length that is not negative, the result of the
    step is a fixed point of the step. *)
Theorem pad_or_truncate_idempotent t (r n : nat) (target : Z)
    (Hshape : shape t = [r; n]) (Hwf : well_formed t) (Hpos : 0 <= target) :
  exists mel,
    pad_trunc t target = Ok mel /\ pad_trunc mel target = Ok mel.
Proof.
  destruct (pad_or_truncate_shape zero t r n target Hshape Hpos)
    as (mel & Hrun & Hmel).
  exists mel. split; [exact Hrun |].
  rewrite <- (Z2Nat.id target Hpos) at 1.
  apply (pad_or_truncate_exact zero mel r (Z.to_nat target) Hmel).
  now apply (pad_or_truncate_well_formed t mel target).
Qed.

(** X13. A negative target length never pads: the step drops the last
    [-target] frames of every row (all of them when the matrix is
    narrower), so the width of the result is not the target length. *)
Theorem pad_or_truncate_negative_target t (r n : nat) (target : Z)
    (Hshape : shape t = [r; n]) (Hwf : well_formed t) (Hneg : target < 0) :
  exists mel,
    pad_trunc t target = Ok mel
    /\ shape mel = [r; Z.to_nat (Z.of_nat n + target)]
    /\ matrix_rows mel
       = map (firstn (Z.to_nat (Z.of_nat n + target))) (matrix_rows t)
    /\ size_last mel <> Ok target.
Proof.
  assert (Hstop : slice_stop n target = Z.to_nat (Z.of_nat n + target)).
  { unfold slice_stop. destruct (Z.ltb_spec target 0); lia. }
  assert (Hrun : pad_trunc t target
                 = Ok (mkTensor [r; Z.to_nat (Z.of_nat n + target)]
                         (List.concat
                            (map (firstn (Z.to_nat (Z.of_nat n + target)))
                               (blocks r n (data t)))))).
  { unfold pad_or_truncate. rewrite (size_last_matrix t r n Hshape).
    cbn [rbind]. destruct (Z.ltb_spec (Z.of_nat n) target); [lia |].
    unfold slice_dim1. rewrite Hshape, Hstop. cbn [numel fold_right].
    now rewrite !Nat.mul_1_r. }
  eexists. split; [exact Hrun |]. split; [reflexivity |]. split.
  - unfold matrix_rows at 2. rewrite Hshape. apply matrix_rows_concat.
    + now rewrite length_map, blocks_length.
    + assert (Hfull : Forall (fun row => List.length row = n)
                        (blocks r n (data t))).
      { apply blocks_all_full. unfold well_formed in Hwf. rewrite Hshape in Hwf.
        cbn [numel fold_right] in Hwf. lia. }
      apply Forall_map. eapply Forall_impl; [| exact Hfull].
      cbn beta. intros row Hrow. rewrite length_firstn. lia.
  - unfold size_last. cbn [shape rev app]. intros [= Heq]. lia.
Qed.

(** X14. A front-end answer of one dimension is padded like a row when
    it is shorter than the target length, and raises [IndexError] when it
    is not: [mel[:, :target]] needs two dimensions. *)
Theorem pad_or_truncate_vector t (n : nat) (target : Z)
    (Hshape : shape t = [n]) :
  (Z.of_nat n < target ->
   pad_or_truncate sample zero t target
   = Ok (mkTensor [Z.to_nat target]
           (firstn n (data t)
              ++ repeat zero (Z.to_nat (target - Z.of_nat n)))%list))
  /\ (target <= Z.of_nat n ->
      pad_or_truncate sample zero t target = Raise IndexError).
Proof.
  unfold pad_or_truncate, size_last. rewrite Hshape. cbn [rev app rbind]. split.
  - intros Hlt. destruct (Z.ltb_spec (Z.of_nat n) target); [| lia].
    unfold F_pad. rewrite Hshape. cbn [rev app numel fold_right].
    rewrite Z.add_0_r.
    destruct (Z.ltb_spec (Z.of_nat n + (target - Z.of_nat n)) 0); [lia |].
    destruct (Z.ltb_spec (Z.of_nat n) 0); [lia |]. cbn [orb].
    unfold blocks. cbn [seq map List.concat Nat.mul skipn].
    rewrite pad_row_right, app_nil_r by lia.
    now replace (Z.of_nat n + (target - Z.of_nat n)) with target by lia.
  - intros Hge. destruct (Z.ltb_spec (Z.of_nat n) target); [lia |].
    unfold slice_dim1. now rewrite Hshape.
Qed.

(** X15. On a front-end answer of three or more dimensions whose last
    dimension is at least the target length, the step cuts dimension 1,
    not the time axis: the last dimension stays as it was. *)
Theorem pad_or_truncate_higher_rank t (d0 d1 d2 : nat) (inner : list nat)
    (last_dim : Z) (target : Z)
    (Hshape : shape t = d0 :: d1 :: d2 :: inner)
    (Hlast : size_last t = Ok last_dim)
    (Hlong : target <= last_dim) :
  exists mel,
    pad_trunc t target = Ok mel
    /\ shape mel = d0 :: slice_stop d1 target :: d2 :: inner
    /\ size_last mel = Ok last_dim.
Proof.
  unfold pad_or_truncate. rewrite Hlast. cbn [rbind].
  destruct (Z.ltb_spec last_dim target); [lia |].
  unfold slice_dim1. rewrite Hshape. eexists. split; [reflexivity |].
  split; [reflexivity |].
  unfold size_last in *. rewrite Hshape in Hlast. cbn [shape rev] in *.
  destruct (rev inner ++ [d2])%list as [| k ks] eqn:Hrev.
  - destruct (rev inner); discriminate.
  - cbn [app] in *. exact Hlast.
Qed.

End PadMore.

(** * Properties of the extraction script *)

Section BatchFacts.

Implicit Types (batch sampler : list Z) (batch_size : nat).

Lemma removelast_cons {X} (x : X) (l : list X) :
  l <> [] -> removelast (x :: l) = x :: removelast l.
Proof. destruct l; [contradiction | reflexivity]. Qed.

Lemma div_round_up_one (len batch_size : nat) :
  (0 < len < batch_size)%nat -> ((len + batch_size - 1) / batch_size = 1)%nat.
Proof.
  intros H. symmetry. apply (Nat.div_unique _ _ 1%nat (len - 1)%nat); lia.
Qed.

Lemma div_round_up_full (len batch_size : nat) :
  (0 < batch_size)%nat ->
  ((batch_size + len + batch_size - 1) / batch_size
   = S ((len + batch_size - 1) / batch_size))%nat.
Proof.
  intros H.
  replace (batch_size + len + batch_size - 1)%nat
    with (1 * batch_size + (len + batch_size - 1))%nat by lia.
  rewrite Nat.div_add_l by lia. lia.
Qed.

(** The batches of the scan, with the batch in hand, are the indices in
    order; every batch but the last is full. *)
Lemma batch_sampler_scan_spec batch_size sampler :
  (0 < batch_size)%nat ->
  forall batch,
    (List.length batch < batch_size)%nat ->
    let batches := Script.batch_sampler_scan batch_size batch sampler in
    List.concat batches = (batch ++ sampler)%list
    /\ Forall (fun b => (0 < List.length b <= batch_size)%nat) batches
    /\ Forall (fun b => List.length b = batch_size) (removelast batches)
    /\ List.length batches
       = ((List.length batch + List.length sampler + batch_size - 1)
          / batch_size)%nat.
Proof.
  intros Hpos. induction sampler as [| idx rest IH]; intros batch Hlen; cbn zeta.
  - cbn [Script.batch_sampler_scan]. destruct batch as [| i batch].
    + cbn. repeat split; try constructor.
      symmetry. apply Nat.div_small. lia.
    + cbn [List.concat removelast]. rewrite !app_nil_r. repeat split.
      * constructor; [cbn in *; lia | constructor].
      * constructor.
      * cbn [List.length]. rewrite Nat.add_0_r.
        symmetry. apply div_round_up_one. cbn in *. lia.
  - cbn [Script.batch_sampler_scan].
    assert (Hlen' : List.length (batch ++ [idx])%list = S (List.length batch))
      by (rewrite length_app; cbn; lia).
    rewrite Hlen'.
    destruct (Nat.eqb_spec (S (List.length batch)) batch_size) as [Hfull | Hroom].
    + destruct (IH [] Hpos) as (Hcat & Hall & Hinit & Hcount). cbn zeta in *.
      cbn [List.concat]. rewrite Hcat. cbn [app]. repeat split.
      * now rewrite <- app_assoc.
      * constructor; [lia | exact Hall].
      * destruct (Script.batch_sampler_scan batch_size [] rest) eqn:Hscan;
          [constructor |].
        rewrite removelast_cons by discriminate.
        constructor; [lia | exact Hinit].
      * cbn [List.length] in *. rewrite Hcount.
        replace (List.length batch + S (List.length rest) + batch_size - 1)%nat
          with (batch_size + List.length rest + batch_size - 1)%nat by lia.
        now rewrite div_round_up_full.
    + destruct (IH (batch ++ [idx])%list ltac:(lia))
        as (Hcat & Hall & Hinit & Hcount). cbn zeta in *.
      repeat split; trivial.
      * now rewrite Hcat, <- app_assoc.
      * rewrite Hcount, Hlen'. cbn [List.length]. f_equal. lia.
Qed.

End BatchFacts.

(** X16. With [shuffle=False] the batches are the indices
    0, 1, ..., len-1 in order, each exactly once; no batch is empty, none
    holds more than [batch_size] indices, every batch but the last holds
    exactly [batch_size], and there are [len(dataloader)] of them. *)
Theorem batch_sampler_partitions (self : dataset) (batch_size : nat)
    (Hpos : (0 < batch_size)%nat) :
  let batches :=
    Script.batch_sampler batch_size (Script.sequential_sampler self) in
  List.concat batches = map Z.of_nat (seq 0 (List.length (metadata self)))
  /\ Forall (fun b => (0 < List.length b <= batch_size)%nat) batches
  /\ Forall (fun b => List.length b = batch_size) (removelast batches)
  /\ List.length batches = Script.dataloader_len self batch_size.
Proof.
  cbn zeta. unfold Script.batch_sampler, Script.dataloader_len.
  destruct (batch_sampler_scan_spec batch_size (Script.sequential_sampler self)
              Hpos [] Hpos) as (Hcat & Hall & Hinit & Hcount).
  cbn zeta in *. unfold Script.sequential_sampler, __len__ in *.
  rewrite Nat2Z.id in *. repeat split; trivial.
  rewrite Hcount, length_map, length_seq. reflexivity.
Qed.

Lemma batch_sampler_partitions_witness :
  let batches :=
    Script.batch_sampler 2 (Script.sequential_sampler Fixture.ds) in
  List.concat batches = map Z.of_nat (seq 0 5)
  /\ Forall (fun b => (0 < List.length b <= 2)%nat) batches
  /\ Forall (fun b => List.length b = 2%nat) (removelast batches)
  /\ List.length batches = Script.dataloader_len Fixture.ds 2.
Proof.
  apply (batch_sampler_partitions Fixture.ds 2). lia.
Defined.

Section ScriptFacts.

Context {sample : Type} (zero : sample).
Context {audio_bytes : Type} (audio_files : string -> option audio_bytes).
Context (path_join : string -> string -> string).
Context (decode : audio_bytes -> option (tensor sample * Z)).
Context (Resample : Z -> Z -> tensor sample -> result (tensor sample)).
Context (feature_extractor : tensor sample -> Z -> result (tensor sample)).
Context (encoder : tensor sample -> result (tensor sample)).

Local Abbreviation getitem :=
  (__getitem__ sample zero audio_bytes audio_files path_join decode
     Resample feature_extractor).
Local Abbreviation front_end :=
  (front_end_output sample audio_bytes audio_files path_join decode
     Resample feature_extractor).
Local Abbreviation resample_step := (resample_if_needed sample Resample).
Local Abbreviation fetch :=
  (Script.fetch sample zero audio_bytes audio_files path_join decode
     Resample feature_extractor).
Local Abbreviation next_batch :=
  (Script.next_batch sample zero audio_bytes audio_files path_join decode
     Resample feature_extractor).
Local Abbreviation extraction_loop :=
  (Script.extraction_loop sample zero audio_bytes audio_files path_join decode
     Resample feature_extractor encoder).
Local Abbreviation main :=
  (Script.main sample zero audio_bytes audio_files path_join decode
     Resample feature_extractor encoder).
Local Abbreviation item_path self filename :=
  (path_join (audio_dir self) (filename ++ ".flac")).

Implicit Types (self : dataset) (t mel : tensor sample) (batch : list Z).

(** *** Fetching a batch *)

Lemma fetch_cons self (idx : Z) batch :
  fetch self (idx :: batch)
  = match getitem self idx with
    | (ta, Raise e) => (ta, Raise e)
    | (ta, Ok item) =>
        match fetch self batch with
        | (tb, Raise e) => ((ta ++ tb)%list, Raise e)
        | (tb, Ok items) => ((ta ++ tb)%list, Ok (item :: items))
        end
    end.
Proof.
  cbn [Script.fetch]. unfold mbind, mret.
  destruct (getitem self idx) as [ta [item | e]]; [| reflexivity].
  destruct (fetch self batch) as [tb [items | e]]; [| reflexivity].
  now rewrite app_nil_r.
Qed.

Lemma next_batch_unfold self batch :
  next_batch self batch
  = match fetch self batch with
    | (tr, Raise e) => (tr, Raise e)
    | (tr, Ok items) => (tr, Script.default_collate sample items)
    end.
Proof.
  unfold Script.next_batch, mbind, lift.
  destruct (fetch self batch) as [tr [items | e]]; [| reflexivity].
  now rewrite app_nil_r.
Qed.

(** The first item that raises ends the fetch: the items after it are
    not touched. *)
Lemma fetch_stops self (pre : list Z) :
  forall tr1 items (idx : Z) tr2 e (post : list Z),
    fetch self pre = (tr1, Ok items) ->
    getitem self idx = (tr2, Raise e) ->
    fetch self (pre ++ idx :: post) = ((tr1 ++ tr2)%list, Raise e).
Proof.
  induction pre as [| i pre IH]; intros tr1 items idx tr2 e post Hpre Hidx.
  - cbn in Hpre. injection Hpre as <- <-. cbn [app].
    now rewrite fetch_cons, Hidx.
  - cbn [app]. rewrite fetch_cons in Hpre |- *.
    destruct (getitem self i) as [ta [item | e0]]; [| discriminate].
    destruct (fetch self pre) as [tb [its | e0]] eqn:Hrest; [| discriminate].
    injection Hpre as <- <-.
    rewrite (IH tb its idx tr2 e post eq_refl Hidx).
    now rewrite app_assoc.
Qed.

Lemma extraction_loop_stops self (done : list (list Z)) :
  forall tr1 outs batch tr2 e (rest : list (list Z)),
    extraction_loop self done = (tr1, Ok outs) ->
    next_batch self batch = (tr2, Raise e) ->
    extraction_loop self (done ++ batch :: rest)
    = ((tr1 ++ map Script.EvDataset tr2)%list, Raise e).
Proof.
  induction done as [| b done IH]; intros tr1 outs batch tr2 e rest Hdone Hbatch.
  - cbn in Hdone. injection Hdone as <- <-. cbn [app Script.extraction_loop].
    now rewrite Hbatch.
  - cbn [app Script.extraction_loop] in Hdone |- *.
    destruct (next_batch self b) as [tb [[mel labels] | e0]]; [| discriminate].
    destruct (encoder mel) as [out | e0]; [| discriminate].
    destruct (extraction_loop self done) as [tr' [outs' | e0]] eqn:Hrest;
      [| discriminate].
    injection Hdone as <- <-.
    rewrite (IH tr' outs' batch tr2 e rest eq_refl Hbatch).
    now rewrite <- app_assoc, <- app_comm_cons.
Qed.

(** *** Stacking *)

Lemma shape_eqb_refl (s : list nat) : Script.shape_eqb s s = true.
Proof. induction s as [| k s IH]; cbn; [reflexivity |]. now rewrite Nat.eqb_refl. Qed.

Lemma stack_same_shape (s : list nat) (tensors : list (tensor sample)) :
  tensors <> [] ->
  Forall (fun t => shape t = s) tensors ->
  Script.stack sample tensors
  = Ok (mkTensor (List.length tensors :: s) (List.concat (map data tensors))).
Proof.
  intros Hne Hall. destruct tensors as [| t rest]; [contradiction |].
  inversion Hall as [| ? ? Ht Hrest]; subst.
  unfold Script.stack.
  assert (Hsame : forallb (fun u => Script.shape_eqb (shape u) (shape t)) rest = true).
  { apply forallb_forall. intros u Hu.
    rewrite (proj1 (Forall_forall _ _) Hrest u Hu). apply shape_eqb_refl. }
  now rewrite Hsame.
Qed.

(** Items whose front-end answers are matrices of [r] rows come out of
    the fetch as matrices of [r] rows and the target width. *)
Lemma fetch_fixed_shape self (r : nat) batch :
  0 <= target_length self ->
  Forall (fun idx =>
            exists label passed features n,
              front_end self idx label passed features
              /\ shape (squeeze0 features) = [r; n]) batch ->
  exists items,
    snd (fetch self batch) = Ok items
    /\ Forall (fun item =>
                 shape (fst item) = [r; Z.to_nat (target_length self)]) items
    /\ Forall2 (fun idx item =>
                  exists filename,
                    Py.getitem (metadata self) idx = Ok (filename, snd item))
         batch items.
Proof.
  intros Hpos. induction 1 as [| idx batch Hidx _ IH].
  - exists []. cbn. repeat split; constructor.
  - destruct Hidx as (label & passed & features & n & Hrun & Hshape).
    destruct IH as (items & Hfetch & Hshapes & Hlabels).
    pose proof (getitem_front_end zero audio_files path_join decode Resample
                  feature_extractor self idx label passed features Hrun) as Hitem.
    destruct (pad_or_truncate_shape zero (squeeze0 features) r n
                (target_length self) Hshape Hpos) as (mel & Hpad & Hmel).
    rewrite Hpad in Hitem. cbn [rbind] in Hitem.
    exists ((mel, label) :: items). rewrite fetch_cons.
    destruct (getitem self idx) as [ta ra]. cbn [snd] in Hitem. subst ra.
    destruct (fetch self batch) as [tb rb]. cbn [snd] in Hfetch. subst rb.
    cbn [snd]. split; [reflexivity |]. split.
    + now constructor.
    + constructor; [| exact Hlabels].
      destruct Hrun as (filename & w & sr & w' & [Hmeta _] & _).
      now exists filename.
Qed.

(** X17. Padding or truncating is what makes a batch: when the front-end
    answers every item of a batch with a matrix of [r] rows, whatever the
    widths, and the target length is not negative, the items are stacked
    into one tensor of shape (items, r, target length), next to the labels
    of their entries in the order of the batch. *)
Theorem next_batch_fixed_shape self (r : nat) batch
    (Hbatch : batch <> [])
    (Hpos : 0 <= target_length self)
    (Hitems : Forall (fun idx =>
                        exists label passed features n,
                          front_end self idx label passed features
                          /\ shape (squeeze0 features) = [r; n]) batch) :
  exists mel_features labels,
    snd (next_batch self batch) = Ok (mel_features, labels)
    /\ shape mel_features
       = [List.length batch; r; Z.to_nat (target_length self)]
    /\ Forall2 (fun idx label =>
                  exists filename,
                    Py.getitem (metadata self) idx = Ok (filename, label))
         batch labels.
Proof.
  destruct (fetch_fixed_shape self r batch Hpos Hitems)
    as (items & Hfetch & Hshapes & Hlabels).
  rewrite next_batch_unfold.
  destruct (fetch self batch) as [tr rb]. cbn [snd] in Hfetch. subst rb.
  cbn [snd]. unfold Script.default_collate.
  rewrite (stack_same_shape [r; Z.to_nat (target_length self)] (map fst items)).
  - cbn [rbind]. eexists. eexists. split; [reflexivity |]. cbn [shape]. split.
    + now rewrite length_map, <- (Forall2_length Hlabels).
    + clear Hshapes Hbatch Hitems.
      induction Hlabels as [| idx item batch items Hhead _ IH]; constructor; trivial.
  - destruct items; [| discriminate].
    apply Forall2_length in Hlabels. destruct batch; [contradiction | discriminate].
  - apply Forall_map. exact Hshapes.
Qed.

(** X18. The script stops at the first item that raises: after batches
    that went through, when an item of the next batch raises and the items
    before it in the batch were fetched, the run ends with that exception,
    and its calls are those made so far; the rest of the batch and the
    batches after it are not touched, and the encoder is not called on the
    batch. *)
Theorem extraction_stops_at_first_failure self
    (done rest : list (list Z)) (pre post : list Z) (idx : Z)
    tr1 outs tr2 items tr3 (e : exn)
    (Hdone : extraction_loop self done = (tr1, Ok outs))
    (Hpre : fetch self pre = (tr2, Ok items))
    (Hidx : getitem self idx = (tr3, Raise e)) :
  extraction_loop self (done ++ (pre ++ idx :: post) :: rest)%list
  = ((tr1 ++ map Script.EvDataset (tr2 ++ tr3))%list, Raise e).
Proof.
  apply (extraction_loop_stops self done tr1 outs _ _ e rest Hdone).
  rewrite next_batch_unfold.
  now rewrite (fetch_stops self pre tr2 items idx tr3 e post Hpre Hidx).
Qed.

(** *** What a run that went through has done *)

Lemma loaded_paths_app (tr1 tr2 : list (Script.script_event sample)) :
  Script.loaded_paths (tr1 ++ tr2)
  = (Script.loaded_paths tr1 ++ Script.loaded_paths tr2)%list.
Proof.
  induction tr1 as [| ev tr1 IH]; [reflexivity |].
  cbn. destruct ev as [[path | orig new w | w rate] | mel]; cbn; now rewrite IH.
Qed.

Lemma encoder_calls_app (tr1 tr2 : list (Script.script_event sample)) :
  Script.encoder_calls (tr1 ++ tr2)
  = (Script.encoder_calls tr1 + Script.encoder_calls tr2)%nat.
Proof.
  induction tr1 as [| ev tr1 IH]; [reflexivity |].
  cbn. destruct ev; cbn; now rewrite IH.
Qed.

Lemma encoder_calls_dataset (tr : list (event sample)) :
  Script.encoder_calls (map Script.EvDataset tr) = 0%nat.
Proof. induction tr as [| ev tr IH]; [reflexivity | exact IH]. Qed.

(** An item that is returned has loaded one file, its own. *)
Lemma getitem_ok_loads self (idx : Z) ta item :
  getitem self idx = (ta, Ok item) ->
  exists filename label,
    Py.getitem (metadata self) idx = Ok (filename, label)
    /\ Script.loaded_paths (map Script.EvDataset ta) = [item_path self filename].
Proof.
  rewrite (getitem_stages zero audio_files path_join decode Resample
             feature_extractor self idx).
  destruct (Py.getitem (metadata self) idx) as [[filename label] | e];
    [| discriminate].
  destruct (audio_files (item_path self filename)) as [bytes |]; [| discriminate].
  destruct (decode bytes) as [[w sample_rate] |]; [| discriminate].
  destruct (resample_step_trace Resample self w sample_rate)
    as [(Htr & Hr & _) | (Htr & Hr & _)];
    destruct (resample_step self w sample_rate) as [tr r];
    cbn [fst snd] in Htr, Hr; subst tr; destruct r as [w' | e];
    try discriminate; intros [= <- _]; exists filename, label;
    (split; [reflexivity |]); reflexivity.
Qed.

Lemma fetch_ok_census self batch :
  forall tr items,
    fetch self batch = (tr, Ok items) ->
    Forall2 (Script.loads_item path_join self) batch
      (Script.loaded_paths (map Script.EvDataset tr)).
Proof.
  induction batch as [| idx batch IH]; intros tr items Hfetch.
  - cbn in Hfetch. injection Hfetch as <- <-. constructor.
  - rewrite fetch_cons in Hfetch.
    destruct (getitem self idx) as [ta [item | e]] eqn:Hitem; [| discriminate].
    destruct (fetch self batch) as [tb [its | e]]; [| discriminate].
    injection Hfetch as <- <-.
    destruct (getitem_ok_loads self idx ta item Hitem)
      as (filename & label & Hmeta & Hpaths).
    rewrite map_app, loaded_paths_app, Hpaths. cbn [app]. constructor.
    + now exists filename, label.
    + now apply (IH tb its).
Qed.

Lemma extraction_loop_census self (batches : list (list Z)) :
  forall tr outs,
    extraction_loop self batches = (tr, Ok outs) ->
    List.length outs = List.length batches
    /\ Script.encoder_calls tr = List.length batches
    /\ Forall2 (Script.loads_item path_join self) (List.concat batches)
         (Script.loaded_paths tr).
Proof.
  induction batches as [| batch batches IH]; intros tr outs Hrun.
  - cbn in Hrun. injection Hrun as <- <-. repeat split. constructor.
  - cbn [Script.extraction_loop] in Hrun. rewrite next_batch_unfold in Hrun.
    destruct (fetch self batch) as [tb [items | e]] eqn:Hfetch; [| discriminate].
    destruct (Script.default_collate sample items) as [[mel labels] | e];
      [| discriminate].
    destruct (encoder mel) as [out | e]; [| discriminate].
    destruct (extraction_loop self batches) as [tr' [outs' | e]]; [| discriminate].
    injection Hrun as <- <-.
    destruct (IH tr' outs' eq_refl) as (Hlen & Hcalls & Hloads).
    rewrite encoder_calls_app, loaded_paths_app, encoder_calls_dataset.
    cbn [Script.encoder_calls Script.loaded_paths List.length List.concat].
    repeat split; try lia.
    apply Forall2_app; [| exact Hloads].
    now apply (fetch_ok_census self batch tb items).
Qed.

(** The paths loaded for the indices [k, k+1, ...] are the paths of the
    entries from position [k] on. *)
Lemma loads_of_range (dir : string) (rate target : Z) (entries : list entry) :
  forall (before : list entry) (paths : list string),
    Forall2 (Script.loads_item path_join
               (mkDataset dir (before ++ entries) rate target))
      (map Z.of_nat (seq (List.length before) (List.length entries))) paths ->
    paths = map (fun e : entry => path_join dir (fst e ++ ".flac")) entries.
Proof.
  induction entries as [| [filename label] entries IH]; intros before paths Hall.
  - inversion Hall. reflexivity.
  - cbn [List.length seq map] in Hall.
    inversion Hall as [| idx path idxs paths' Hhead Htail]; subst.
    destruct Hhead as (filename' & label' & Hmeta & ->).
    cbn [metadata audio_dir] in Hmeta. rewrite getitem_nat in Hmeta.
    rewrite nth_error_app2, Nat.sub_diag in Hmeta by lia. cbn in Hmeta.
    injection Hmeta as <- <-. cbn [map fst]. f_equal.
    apply (IH (before ++ [(filename, label)])%list).
    rewrite <- app_assoc, length_app. cbn [app List.length].
    now rewrite Nat.add_1_r.
Qed.

(** X19. A run of the script that goes through has loaded the audio file
    of every entry of the protocol file exactly once, in the order of the
    file, and has called the encoder once per batch of 32:
    ceil(entries / 32) times, with as many results. *)
Theorem main_success_census (fs : filesystem)
    (Hok : is_ok (snd (main fs)) = true) :
  exists data outs,
    load_metadata fs Script.metadata_path = Ok data
    /\ snd (main fs) = Ok outs
    /\ Script.loaded_paths (fst (main fs))
       = map (fun e : entry => path_join Script.audio_dir (fst e ++ ".flac")) data
    /\ Script.encoder_calls (fst (main fs)) = ((List.length data + 31) / 32)%nat
    /\ List.length outs = ((List.length data + 31) / 32)%nat.
Proof.
  unfold Script.main, __init__ in *.
  destruct (load_metadata fs Script.metadata_path) as [data | e];
    cbn [rbind] in *; [| discriminate].
  set (self := mkDataset Script.audio_dir data default_sampling_rate
                 default_target_length) in *.
  destruct (extraction_loop self
              (Script.batch_sampler Script.batch_size
                 (Script.sequential_sampler self))) as [tr [outs | e]] eqn:Hrun;
    [| discriminate].
  exists data, outs. cbn [fst snd].
  destruct (extraction_loop_census self _ tr outs Hrun) as (Hlen & Hcalls & Hloads).
  destruct (batch_sampler_scan_spec Script.batch_size
              (Script.sequential_sampler self) ltac:(unfold Script.batch_size; lia)
              [] ltac:(unfold Script.batch_size; cbn; lia))
    as (Hcat & _ & _ & Hcount).
  cbn zeta in Hcat, Hcount. fold (Script.batch_sampler Script.batch_size
                                    (Script.sequential_sampler self)) in Hcat, Hcount.
  rewrite Hcat in Hloads. rewrite Hcount in Hlen, Hcalls.
  unfold Script.sequential_sampler, __len__ in *. cbn [metadata self] in *.
  rewrite Nat2Z.id in *. rewrite length_map, length_seq in *.
  cbn [app List.length] in *. unfold Script.batch_size in *.
  replace (0 + List.length data + 32 - 1)%nat with (List.length data + 31)%nat
    in * by lia.
  repeat split; trivial.
  now apply (loads_of_range Script.audio_dir default_sampling_rate
               default_target_length data []).
Qed.

End ScriptFacts.

(** * The further properties on the test doubles *)

Lemma faulty_decodes_other_rate :
  Faulty.decodes Fixture.ds 1 "LA_T_0002" 1 (Fixture.mono [1; 2; 3]) 8000.
Proof. unfold Faulty.decodes, decodes_to. run_fixture. Qed.

Lemma getitem_index_out_of_range_witness :
  Fixture.getitem Fixture.ds 5 = ([], Raise IndexError).
Proof.
  apply (getitem_index_out_of_range 0 Fixture.audio_files Fixture.path_join
           Fixture.decode Fixture.Resample Fixture.feature_extractor
           Fixture.ds 5).
  right. cbn. lia.
Defined.

Lemma getitem_negative_index_witness :
  Fixture.getitem Fixture.ds (-2) = Fixture.getitem Fixture.ds (-2 + 5).
Proof.
  apply (getitem_negative_index 0 Fixture.audio_files Fixture.path_join
           Fixture.decode Fixture.Resample Fixture.feature_extractor
           Fixture.ds (-2)).
  cbn. lia.
Defined.

Lemma getitem_undecodable_audio_witness :
  Faulty.getitem Fixture.ds 0
  = ([EvLoad "flac/LA_T_0001.flac"],
     Raise (AudioDecodeError "flac/LA_T_0001.flac")).
Proof.
  apply (getitem_undecodable_audio 0 Faulty.audio_files Fixture.path_join
           Fixture.decode Faulty.Resample Faulty.feature_extractor
           Fixture.ds 0 "LA_T_0001" 0 None).
  - vm_compute. reflexivity.
  - vm_compute. reflexivity.
  - reflexivity.
Defined.

Lemma getitem_library_error_propagates_witness :
  Faulty.getitem Fixture.ds 1
  = ([EvLoad "flac/LA_T_0002.flac";
      EvResample 8000 16000 (Fixture.mono [1; 2; 3])],
     Raise (LibraryError "Resample")).
Proof.
  apply (proj1 (getitem_library_error_propagates 0 Faulty.audio_files
                  Fixture.path_join Fixture.decode Faulty.Resample
                  Faulty.feature_extractor Fixture.ds 1 "LA_T_0002" 1
                  (Fixture.mono [1; 2; 3]) 8000 (LibraryError "Resample")
                  faulty_decodes_other_rate)).
  - cbn. lia.
  - reflexivity.
Defined.

Lemma getitem_returns_pipeline_output_witness :
  exists passed features,
    Fixture.front_end Fixture.ds 0 0 passed features
    /\ pad_or_truncate Z 0 (squeeze0 features) 4
       = Ok (mkTensor [2%nat; 4%nat] [7; 8; 0; 0; -7; -8; 0; 0])
    /\ In (EvFeatureExtractor passed 16000) (fst (Fixture.getitem Fixture.ds 0)).
Proof.
  apply (getitem_returns_pipeline_output 0 Fixture.audio_files Fixture.path_join
           Fixture.decode Fixture.Resample Fixture.feature_extractor
           Fixture.ds 0 (mkTensor [2%nat; 4%nat] [7; 8; 0; 0; -7; -8; 0; 0]) 0).
  vm_compute. reflexivity.
Defined.

Lemma getitem_keeps_well_formed_witness :
  well_formed (mkTensor [2%nat; 4%nat] [7; 8; 0; 0; -7; -8; 0; 0]).
Proof.
  apply (getitem_keeps_well_formed 0 Fixture.audio_files Fixture.path_join
           Fixture.decode Fixture.Resample Fixture.feature_extractor
           Fixture.ds 0 0 _ _ _ fixture_front_end_short).
  - reflexivity.
  - vm_compute. reflexivity.
Defined.

Lemma pad_or_truncate_idempotent_witness :
  exists mel,
    pad_or_truncate Z 0 (mkTensor [2%nat; 2%nat] [7; 8; -7; -8]) 4 = Ok mel
    /\ pad_or_truncate Z 0 mel 4 = Ok mel.
Proof.
  apply (pad_or_truncate_idempotent 0 (mkTensor [2%nat; 2%nat] [7; 8; -7; -8])
           2 2 4).
  - reflexivity.
  - reflexivity.
  - lia.
Defined.

Lemma pad_or_truncate_negative_target_witness :
  exists mel,
    pad_or_truncate Z 0 (mkTensor [2%nat; 3%nat] [1; 2; 3; 4; 5; 6]) (-1) = Ok mel
    /\ shape mel = [2%nat; 2%nat]
    /\ matrix_rows mel = [[1; 2]; [4; 5]]
    /\ size_last mel <> Ok (-1).
Proof.
  apply (pad_or_truncate_negative_target 0
           (mkTensor [2%nat; 3%nat] [1; 2; 3; 4; 5; 6]) 2 3 (-1)).
  - reflexivity.
  - reflexivity.
  - lia.
Defined.

Lemma pad_or_truncate_vector_witness :
  (3 < 5 ->
   pad_or_truncate Z 0 (mkTensor [3%nat] [1; 2; 3]) 5
   = Ok (mkTensor [5%nat] [1; 2; 3; 0; 0]))
  /\ (5 <= 3 -> pad_or_truncate Z 0 (mkTensor [3%nat] [1; 2; 3]) 5 = Raise IndexError).
Proof.
  apply (pad_or_truncate_vector 0 (mkTensor [3%nat] [1; 2; 3]) 3 5).
  reflexivity.
Defined.

Lemma pad_or_truncate_higher_rank_witness :
  exists mel,
    pad_or_truncate Z 0
      (mkTensor [2%nat; 3%nat; 2%nat] [1; 2; 3; 4; 5; 6; 7; 8; 9; 10; 11; 12]) 1
    = Ok mel
    /\ shape mel = [2%nat; 1%nat; 2%nat]
    /\ size_last mel = Ok 2.
Proof.
  apply (pad_or_truncate_higher_rank 0
           (mkTensor [2%nat; 3%nat; 2%nat] [1; 2; 3; 4; 5; 6; 7; 8; 9; 10; 11; 12])
           2 3 2 [] 2 1).
  - reflexivity.
  - reflexivity.
  - lia.
Defined.

Lemma next_batch_fixed_shape_witness :
  exists mel_features labels,
    snd (ScriptFixture.next_batch Fixture.ds [0; 1; 3]) = Ok (mel_features, labels)
    /\ shape mel_features = [3%nat; 2%nat; 4%nat]
    /\ Forall2 (fun idx label =>
                  exists filename,
                    Py.getitem (metadata Fixture.ds) idx = Ok (filename, label))
         [0; 1; 3] labels.
Proof.
  apply (next_batch_fixed_shape 0 Fixture.audio_files Fixture.path_join
           Fixture.decode Fixture.Resample Fixture.feature_extractor
           Fixture.ds 2 [0; 1; 3]).
  - discriminate.
  - cbn. lia.
  - repeat constructor.
    + eexists _, _, _, _. split; [exact fixture_front_end_short | reflexivity].
    + eexists _, _, _, _. split; [exact fixture_front_end_long | reflexivity].
    + eexists _, _, _, _. split; [exact fixture_front_end_exact | reflexivity].
Defined.

Lemma extraction_stops_at_first_failure_witness :
  exists trace,
    ScriptFixture.extraction_loop Fixture.ds [[0; 1]; [3; 4]; [2]]
    = (trace, Raise (AudioIOError "flac/LA_T_0005.flac"))
    /\ Script.loaded_paths trace
       = ["flac/LA_T_0001.flac"; "flac/LA_T_0002.flac";
          "flac/LA_T_0004.flac"; "flac/LA_T_0005.flac"]
    /\ Script.encoder_calls trace = 1%nat.
Proof.
  eexists. split.
  - eapply (extraction_stops_at_first_failure 0 Fixture.audio_files
              Fixture.path_join Fixture.decode Fixture.Resample
              Fixture.feature_extractor ScriptFixture.encoder
              Fixture.ds [[0; 1]] [[2]] [3] [] 4).
    + vm_compute. reflexivity.
    + vm_compute. reflexivity.
    + vm_compute. reflexivity.
  - split; vm_compute; reflexivity.
Defined.

Lemma main_success_census_witness :
  exists data outs,
    load_metadata ScriptFixture.fs Script.metadata_path = Ok data
    /\ snd ScriptFixture.main = Ok outs
    /\ Script.loaded_paths (fst ScriptFixture.main)
       = map (fun e : entry =>
                Fixture.path_join Script.audio_dir (fst e ++ ".flac")) data
    /\ Script.encoder_calls (fst ScriptFixture.main)
       = ((List.length data + 31) / 32)%nat
    /\ List.length outs = ((List.length data + 31) / 32)%nat.
Proof.
  apply (main_success_census 0 ScriptFixture.audio_files Fixture.path_join
           Fixture.decode Fixture.Resample Fixture.feature_extractor
           ScriptFixture.encoder ScriptFixture.fs).
  vm_compute. reflexivity.
Defined.
